(* Corporate-OS event distribution and audit pipeline: a shallow embedding
   of the Python sources

     src/core/events/handlers.py          convert_decimal_to_float,
                                           handle_audit_persistence
     src/audit/service/audit_service.py   AuditEventService.create_event,
                                           AuditEventService.get_events
     src/audit/service/audit_system.py    the AuditEvent table
     src/bus_event/events/event_bus.py    EventBus (subscribe, publish,
                                           _handle_sync)
     src/bus_event/event_type.py          EventTypeEnum
     src/events/publisher.py              BasePublisher, AuditEventPublisher
     src/events/consumer.py               the category handlers and
                                           EventConsumer.callback

   Python values are the inductive [pyval]; Python exceptions are the
   [Raise] results of the small error type [py]; floats are the IEEE
   binary64 numbers of Stdlib's SpecFloat. *)

From Stdlib Require Import ZArith List String Ascii Bool Lia.
From Stdlib Require Import SpecFloat.
From Stdlib Require Import Sorted Permutation.
Import ListNotations.
Open Scope string_scope.
Open Scope Z_scope.
Set Warnings "-register-all".

(* ------------------------------------------------------------------ *)
(** * Python values and exceptions *)

(** Binary64, as Python's [float]. *)
Definition prec : Z := 53.
Definition emax : Z := 1024.
Definition pyfloat := spec_float.

(** Python values that occur in payloads, messages and rows.  A
    [decimal.Decimal] is a finite value [m * 10^e]; [PObj] is any other
    object (datetime, UUID, ...), known only by an identity. *)
Inductive pyval : Type :=
| PNone
| PBool (b : bool)
| PInt (z : Z)
| PFloat (f : pyfloat)
| PDecimal (m e : Z)
| PStr (s : string)
| PList (l : list pyval)
| PTuple (l : list pyval)
| PDict (d : list (string * pyval))
| PObj (n : nat).

(** Python exceptions raised along the modelled paths. *)
Inductive exn : Type :=
| AttributeError
| TypeError
| KeyError
| JSONDecodeError
| UnicodeDecodeError
| IntegrityError
| AuditEventError
| ArgumentError
| CompileError
| MultipleResultsFound
| StatementError
| DataError
| ProgrammingError
| OverflowError
| AMQPConnectionError
| ChannelError
| HandlerError (n : nat).

(** The outcome of a Python call: a returned value or a raised exception. *)
Inductive py (A : Type) : Type :=
| Ret (a : A)
| Raise (e : exn).
Arguments Ret {A} a.
Arguments Raise {A} e.

Definition py_bind {A B : Type} (c : py A) (k : A -> py B) : py B :=
  match c with
  | Ret a => k a
  | Raise e => Raise e
  end.

Notation "'let*' x ':=' c 'in' k" := (py_bind c (fun x => k))
  (at level 200, x name, c at level 100, k at level 200).

(** Python truthiness ([bool(v)]). *)
Definition truthy (v : pyval) : bool :=
  match v with
  | PNone => false
  | PBool b => b
  | PInt z => negb (z =? 0)
  | PFloat f => match f with S754_zero _ => false | _ => true end
  | PDecimal m _ => negb (m =? 0)
  | PStr s => negb (String.eqb s EmptyString)
  | PList l | PTuple l => match l with [] => false | _ => true end
  | PDict d => match d with [] => false | _ => true end
  | PObj _ => true
  end.

(** [d.get(k)] on a dict: the value stored under [k], or [None]. *)
Fixpoint dict_get (d : list (string * pyval)) (k : string) : pyval :=
  match d with
  | [] => PNone
  | (k', v) :: d' => if String.eqb k' k then v else dict_get d' k
  end.

(** [d.get(k, default)]. *)
Fixpoint dict_get_default (d : list (string * pyval)) (k : string) (dflt : pyval)
  : pyval :=
  match d with
  | [] => dflt
  | (k', v) :: d' => if String.eqb k' k then v else dict_get_default d' k dflt
  end.

(** [obj.get(k)] on an arbitrary value: only dicts have [get]. *)
Definition py_get (o : pyval) (k : string) : py pyval :=
  match o with
  | PDict d => Ret (dict_get d k)
  | _ => Raise AttributeError
  end.

Definition py_get_default (o : pyval) (k : string) (dflt : pyval) : py pyval :=
  match o with
  | PDict d => Ret (dict_get_default d k dflt)
  | _ => Raise AttributeError
  end.

(** [v == "s"] for a value [v] and a string literal. *)
Definition eq_str (v : pyval) (s : string) : bool :=
  match v with
  | PStr s' => String.eqb s' s
  | _ => false
  end.

(** [d[k] = v] on a dict: an existing key keeps its position. *)
Fixpoint dict_set (d : list (string * pyval)) (k : string) (v : pyval)
  : list (string * pyval) :=
  match d with
  | [] => [(k, v)]
  | (k', v') :: d' =>
      if String.eqb k' k then (k', v) :: d' else (k', v') :: dict_set d' k v
  end.

(* ------------------------------------------------------------------ *)
(** * [float(Decimal)] and [convert_decimal_to_float] *)

(** [float(Decimal(m * 10^e))], correctly rounded to nearest-even as
    CPython does it.  For [e < 0] the quotient [|m| * 2^s / 10^k] is
    computed with [s] far beyond the binary64 range and a sticky bit
    records a non-zero remainder, so one rounding step of
    [binary_round] gives the correctly rounded result. *)
Definition decimal_to_float (m e : Z) : pyfloat :=
  if 0 <=? e then binary_normalize prec emax (m * 10 ^ e) 0 false
  else if m =? 0 then S754_zero false
  else
    let k := - e in
    let s := 1100 + 4 * k in
    let '(q, r) := Z.div_eucl (Z.abs m * 2 ^ s) (10 ^ k) in
    let mx := 2 * q + (if r =? 0 then 0 else 1) in
    binary_round prec emax (m <? 0) (Z.to_pos mx) (- s - 1).

(** [convert_decimal_to_float] (src/core/events/handlers.py:17-26). *)
Fixpoint convert_decimal_to_float (obj : pyval) : pyval :=
  match obj with
  | PDecimal m e => PFloat (decimal_to_float m e)
  | PDict d => PDict (map (fun kv => (fst kv, convert_decimal_to_float (snd kv))) d)
  | PList l => PList (map convert_decimal_to_float l)
  | other => other
  end.

(* ------------------------------------------------------------------ *)
(** * [body.decode('utf-8')] and [json.loads] *)

(** Message bodies are byte strings; a decoded Python [str] is kept as
    its UTF-8 bytes. *)
Module Json.


Definition code (c : ascii) : Z := Z.of_nat (nat_of_ascii c).
Definition byte_of (z : Z) : ascii := ascii_of_nat (Z.to_nat z).

Definition in_range (c : ascii) (lo hi : Z) : bool := (lo <=? code c) && (code c <=? hi).
Definition cont (c : ascii) : bool := in_range c 128 191.

(** The strict UTF-8 decoder of CPython: no overlong forms, no
    surrogates, nothing above U+10FFFF. *)
Fixpoint utf8_valid (l : list ascii) : bool :=
  match l with
  | [] => true
  | c :: r =>
      if code c <? 128 then utf8_valid r
      else if in_range c 194 223 then
        match r with c1 :: r1 => cont c1 && utf8_valid r1 | _ => false end
      else if in_range c 224 239 then
        match r with
        | c1 :: c2 :: r2 =>
            (if code c =? 224 then in_range c1 160 191
             else if code c =? 237 then in_range c1 128 159
             else cont c1) && cont c2 && utf8_valid r2
        | _ => false
        end
      else if in_range c 240 244 then
        match r with
        | c1 :: c2 :: c3 :: r3 =>
            (if code c =? 240 then in_range c1 144 191
             else if code c =? 244 then in_range c1 128 143
             else cont c1) && cont c2 && cont c3 && utf8_valid r3
        | _ => false
        end
      else false
  end.

(** The UTF-8 bytes of one code point (a lone surrogate of a [\u]
    escape is kept in its three-byte form). *)
Definition utf8_encode (cp : Z) : list ascii :=
  if cp <? 128 then [byte_of cp]
  else if cp <? 2048 then [byte_of (192 + cp / 64); byte_of (128 + cp mod 64)]
  else if cp <? 65536 then
    [byte_of (224 + cp / 4096); byte_of (128 + (cp / 64) mod 64);
     byte_of (128 + cp mod 64)]
  else
    [byte_of (240 + cp / 262144); byte_of (128 + (cp / 4096) mod 64);
     byte_of (128 + (cp / 64) mod 64); byte_of (128 + cp mod 64)].

Definition is_ws (c : ascii) : bool :=
  match c with
  | " "%char | "009"%char | "010"%char | "013"%char => true
  | _ => false
  end.

Fixpoint skip_ws (s : list ascii) : list ascii :=
  match s with
  | c :: r => if is_ws c then skip_ws r else s
  | [] => []
  end.

Definition digit (c : ascii) : option Z :=
  if in_range c 48 57 then Some (code c - 48) else None.

Definition hex (c : ascii) : option Z :=
  if in_range c 48 57 then Some (code c - 48)
  else if in_range c 97 102 then Some (code c - 87)
  else if in_range c 65 70 then Some (code c - 55)
  else None.

Definition hex4 (s : list ascii) : option (Z * list ascii) :=
  match s with
  | a :: b :: c :: d :: r =>
      match hex a, hex b, hex c, hex d with
      | Some x, Some y, Some z, Some w => Some (((x * 16 + y) * 16 + z) * 16 + w, r)
      | _, _, _, _ => None
      end
  | _ => None
  end.

(** The body of a JSON string after its opening quote (py_scanstring,
    strict): escapes, surrogate pairs, no raw control characters.  The
    result is the decoded string and the rest of the input. *)
Fixpoint p_string (fuel : nat) (s : list ascii) (acc : list ascii)
  : option (list ascii * list ascii) :=
  match fuel with
  | O => None
  | S f =>
  match s with
  | [] => None
  | c :: r =>
      if Ascii.eqb c "034"%char then Some (rev acc, r)
      else if Ascii.eqb c "\"%char then
        match r with
        | [] => None
        | e :: r' =>
            let simple (c' : ascii) := p_string f r' (c' :: acc) in
            if Ascii.eqb e "034"%char then simple "034"%char
            else if Ascii.eqb e "\"%char then simple "\"%char
            else if Ascii.eqb e "/"%char then simple "/"%char
            else if Ascii.eqb e "b"%char then simple "008"%char
            else if Ascii.eqb e "f"%char then simple "012"%char
            else if Ascii.eqb e "n"%char then simple "010"%char
            else if Ascii.eqb e "r"%char then simple "013"%char
            else if Ascii.eqb e "t"%char then simple "009"%char
            else if Ascii.eqb e "u"%char then
              match hex4 r' with
              | None => None
              | Some (hi, r1) =>
                  let lone := p_string f r1 (rev (utf8_encode hi) ++ acc) in
                  if (55296 <=? hi) && (hi <=? 56319) then
                    match r1 with
                    | b1 :: u :: r2 =>
                        if Ascii.eqb b1 "\"%char && Ascii.eqb u "u"%char then
                          match hex4 r2 with
                          | Some (lo, r3) =>
                              if (56320 <=? lo) && (lo <=? 57343) then
                                p_string f r3
                                  (rev (utf8_encode
                                     (65536 + (hi - 55296) * 1024 + (lo - 56320)))
                                   ++ acc)
                              else lone
                          | None => lone
                          end
                        else lone
                    | _ => lone
                    end
                  else lone
              end
            else None
        end
      else if code c <? 32 then None
      else p_string f r (c :: acc)
  end
  end.

Fixpoint take_digits (s : list ascii) (acc : Z) (n : nat) : Z * nat * list ascii :=
  match s with
  | c :: r =>
      match digit c with
      | Some d => take_digits r (acc * 10 + d) (S n)
      | None => (acc, n, s)
      end
  | [] => (acc, n, s)
  end.

(** NUMBER_RE of the json scanner: an optional minus, the integer part
    ([0] or a non-zero digit followed by digits), an optional fraction
    (a dot and at least one digit) and an optional exponent ([e] or [E],
    an optional sign, at least one digit); an int when neither the
    fraction nor the exponent is present, else [float(...)]. *)
Definition p_number (s : list ascii) : option (pyval * list ascii) :=
  let '(neg, s1) :=
    match s with
    | c :: r => if Ascii.eqb c "-"%char then (true, r) else (false, s)
    | [] => (false, s)
    end in
  let int_part :=
    match s1 with
    | c :: r =>
        if Ascii.eqb c "0"%char then Some (0, r)
        else if in_range c 49 57 then
          let '(v, _, r') := take_digits s1 0 O in Some (v, r')
        else None
    | [] => None
    end in
  match int_part with
  | None => None
  | Some (ip, r1) =>
      let '(frac, r2) :=
        match r1 with
        | c :: d :: _ =>
            if Ascii.eqb c "."%char && (match digit d with Some _ => true | None => false end)
            then let '(fv, fn, r') := take_digits (tl r1) 0 O in (Some (fv, fn), r')
            else (None, r1)
        | _ => (None, r1)
        end in
      let exp_digits (t : list ascii) (sgn : Z) :=
        match t with
        | d :: _ =>
            match digit d with
            | Some _ => let '(ev, _, r') := take_digits t 0 O in Some (sgn * ev, r')
            | None => None
            end
        | [] => None
        end in
      let '(ex, r3) :=
        match r2 with
        | c :: t =>
            if Ascii.eqb c "e"%char || Ascii.eqb c "E"%char then
              match t with
              | c' :: t' =>
                  let signed :=
                    if Ascii.eqb c' "+"%char then exp_digits t' 1
                    else if Ascii.eqb c' "-"%char then exp_digits t' (-1)
                    else exp_digits t 1 in
                  match signed with
                  | Some (e, r') => (Some e, r')
                  | None => (None, r2)
                  end
              | [] => (None, r2)
              end
            else (None, r2)
        | [] => (None, r2)
        end in
      match frac, ex with
      | None, None => Some (PInt (if neg then - ip else ip), r3)
      | _, _ =>
          let '(fv, fn) := match frac with Some p => p | None => (0, O) end in
          let m := ip * 10 ^ Z.of_nat fn + fv in
          let e := match ex with Some e => e | None => 0 end - Z.of_nat fn in
          let f := if m =? 0 then S754_zero neg
                   else decimal_to_float (if neg then - m else m) e in
          Some (PFloat f, r3)
      end
  end.

Fixpoint strip_prefix (w : list ascii) (s : list ascii) : option (list ascii) :=
  match w, s with
  | [], _ => Some s
  | a :: w', b :: s' => if Ascii.eqb a b then strip_prefix w' s' else None
  | _ :: _, [] => None
  end.

Definition starts_with (w : string) (s : list ascii) : option (list ascii) :=
  strip_prefix (list_ascii_of_string w) s.

(** scan_once, JSONObject and JSONArray of the json scanner; a repeated
    key keeps its first position and its last value, as [dict] does. *)
Fixpoint p_value (fuel : nat) (s : list ascii) {struct fuel}
  : option (pyval * list ascii) :=
  match fuel with
  | O => None
  | S f =>
  match s with
  | [] => None
  | c :: r =>
      if Ascii.eqb c "034"%char then
        match p_string (S (List.length r)) r [] with
        | Some (str, r') => Some (PStr (string_of_list_ascii str), r')
        | None => None
        end
      else if Ascii.eqb c "{"%char then
        match skip_ws r with
        | c' :: r' => if Ascii.eqb c' "}"%char then Some (PDict [], r')
                      else p_members f (c' :: r') []
        | [] => None
        end
      else if Ascii.eqb c "["%char then
        match skip_ws r with
        | c' :: r' => if Ascii.eqb c' "]"%char then Some (PList [], r')
                      else p_elements f (c' :: r') []
        | [] => None
        end
      else
        match starts_with "null" s with
        | Some r' => Some (PNone, r')
        | None =>
        match starts_with "true" s with
        | Some r' => Some (PBool true, r')
        | None =>
        match starts_with "false" s with
        | Some r' => Some (PBool false, r')
        | None =>
        match starts_with "NaN" s with
        | Some r' => Some (PFloat (S754_nan), r')
        | None =>
        match starts_with "Infinity" s with
        | Some r' => Some (PFloat (S754_infinity false), r')
        | None =>
        match starts_with "-Infinity" s with
        | Some r' => Some (PFloat (S754_infinity true), r')
        | None => p_number s
        end end end end end end
  end
  end
with p_members (fuel : nat) (s : list ascii) (acc : list (string * pyval)) {struct fuel}
  : option (pyval * list ascii) :=
  match fuel with
  | O => None
  | S f =>
  match s with
  | c :: r =>
      if Ascii.eqb c "034"%char then
        match p_string (S (List.length r)) r [] with
        | Some (key, r1) =>
            match skip_ws r1 with
            | c1 :: r2 =>
                if Ascii.eqb c1 ":"%char then
                  match p_value f (skip_ws r2) with
                  | Some (v, r3) =>
                      let acc' := dict_set acc (string_of_list_ascii key) v in
                      match skip_ws r3 with
                      | c2 :: r4 =>
                          if Ascii.eqb c2 "}"%char then Some (PDict acc', r4)
                          else if Ascii.eqb c2 ","%char then p_members f (skip_ws r4) acc'
                          else None
                      | [] => None
                      end
                  | None => None
                  end
                else None
            | [] => None
            end
        | None => None
        end
      else None
  | [] => None
  end
  end
with p_elements (fuel : nat) (s : list ascii) (acc : list pyval) {struct fuel}
  : option (pyval * list ascii) :=
  match fuel with
  | O => None
  | S f =>
      match p_value f s with
      | Some (v, r) =>
          match skip_ws r with
          | c :: r' =>
              if Ascii.eqb c "]"%char then Some (PList (rev (v :: acc)), r')
              else if Ascii.eqb c ","%char then p_elements f (skip_ws r') (v :: acc)
              else None
          | [] => None
          end
      | None => None
      end
  end.

End Json.

(** [json.loads(body.decode('utf-8'))]. *)
Definition json_loads (body : string) : py pyval :=
  let l := list_ascii_of_string body in
  if negb (Json.utf8_valid l) then Raise UnicodeDecodeError
  else
    match Json.p_value (2 * List.length l + 2) (Json.skip_ws l) with
    | Some (v, rest) =>
        match Json.skip_ws rest with
        | [] => Ret v
        | _ => Raise JSONDecodeError
        end
    | None => Raise JSONDecodeError
    end.

(* ------------------------------------------------------------------ *)
(** * The domain event kinds *)

(** [EventTypeEnum] of src/bus_event/event_type.py.  The consumer and
    the publisher import a class of this name from [core.event_type];
    the members they use (USER_LOGIN ... SYSTEM_ERROR) are the ones
    declared here. *)
Inductive EventTypeEnum : Type :=
| USER_LOGIN | USER_LOGOUT | SHAREHOLDER_CREATED | SHAREHOLDER_UPDATED
| SHARE_ISSUED | CERTIFICATE_GENERATED | PERMISSION_CHANGED | DATA_EXPORT
| SYSTEM_ERROR.

Definition EventTypeEnum_value (t : EventTypeEnum) : string :=
  match t with
  | USER_LOGIN => "user_login"
  | USER_LOGOUT => "user_logout"
  | SHAREHOLDER_CREATED => "shareholder_created"
  | SHAREHOLDER_UPDATED => "shareholder_updated"
  | SHARE_ISSUED => "share_issued"
  | CERTIFICATE_GENERATED => "certificate_generated"
  | PERMISSION_CHANGED => "permission_changed"
  | DATA_EXPORT => "data_export"
  | SYSTEM_ERROR => "system_error"
  end.

(** Iteration order of the enum (declaration order). *)
Definition EventTypeEnum_members : list EventTypeEnum :=
  [USER_LOGIN; USER_LOGOUT; SHAREHOLDER_CREATED; SHAREHOLDER_UPDATED;
   SHARE_ISSUED; CERTIFICATE_GENERATED; PERMISSION_CHANGED; DATA_EXPORT;
   SYSTEM_ERROR].

(** [v in [e.value for e in EventTypeEnum]]. *)
Definition in_event_type_values (v : pyval) : bool :=
  existsb (fun t => eq_str v (EventTypeEnum_value t)) EventTypeEnum_members.

(* ------------------------------------------------------------------ *)
(** * The category handlers of src/events/consumer.py *)

(** The shape shared by every concrete handler method: read some fields
    with [payload.get] inside [try], log, [return True]; an exception
    gives [return False].  Logging has no modelled effect. *)
Definition try_reads_then_true (payload : pyval) (keys : list string) : py bool :=
  match fold_left (fun acc k => let* _ := acc in py_get payload k) keys (Ret PNone) with
  | Ret _ => Ret true
  | Raise _ => Ret false
  end.

Module AuditEventHandler.
Definition handle_user_login (payload event_id : pyval) : py bool :=
  try_reads_then_true payload ["user_id"; "user_email"; "user_role"; "ip_address"].
Definition handle_user_logout (payload event_id : pyval) : py bool :=
  try_reads_then_true payload ["user_id"; "user_email"; "session_duration"].
(** [handle_shareholder_created] also calls
    [shareholder_data.get('username')] inside its [try], for the log line. *)
Definition handle_shareholder_created (payload event_id : pyval) : py bool :=
  match (let* _ := py_get payload "user_id" in
         let* shareholder_data := py_get_default payload "shareholder_data" (PDict []) in
         py_get shareholder_data "username") with
  | Ret _ => Ret true
  | Raise _ => Ret false
  end.
Definition handle_shareholder_updated (payload event_id : pyval) : py bool :=
  try_reads_then_true payload ["user_id"; "shareholder_id"; "previous_data"; "new_data"].
Definition handle_share_issued (payload event_id : pyval) : py bool :=
  try_reads_then_true payload ["user_id"; "shareholder_id"; "share_data"].
Definition handle_certificate_generated (payload event_id : pyval) : py bool :=
  try_reads_then_true payload ["user_id"; "shareholder_id"; "certificate_path"].
Definition handle_permission_changed (payload event_id : pyval) : py bool :=
  try_reads_then_true payload ["admin_user_id"; "target_user_id"; "old_role"; "new_role"].
Definition handle_data_export (payload event_id : pyval) : py bool :=
  try_reads_then_true payload ["user_id"; "export_type"; "export_format"; "record_count"].
Definition handle_system_error (payload event_id : pyval) : py bool :=
  try_reads_then_true payload ["error_type"; "error_message"; "stack_trace"].

(** [AuditEventHandler.handle] (consumer.py:176-200): dispatch on the
    payload's own ["event_type"] key; [payload.get] is outside any try. *)
Definition handle (payload event_id : pyval) : py bool :=
  let* event_type := py_get payload "event_type" in
  if eq_str event_type (EventTypeEnum_value USER_LOGIN) then handle_user_login payload event_id
  else if eq_str event_type (EventTypeEnum_value USER_LOGOUT) then handle_user_logout payload event_id
  else if eq_str event_type (EventTypeEnum_value SHAREHOLDER_CREATED) then handle_shareholder_created payload event_id
  else if eq_str event_type (EventTypeEnum_value SHAREHOLDER_UPDATED) then handle_shareholder_updated payload event_id
  else if eq_str event_type (EventTypeEnum_value SHARE_ISSUED) then handle_share_issued payload event_id
  else if eq_str event_type (EventTypeEnum_value CERTIFICATE_GENERATED) then handle_certificate_generated payload event_id
  else if eq_str event_type (EventTypeEnum_value PERMISSION_CHANGED) then handle_permission_changed payload event_id
  else if eq_str event_type (EventTypeEnum_value DATA_EXPORT) then handle_data_export payload event_id
  else if eq_str event_type (EventTypeEnum_value SYSTEM_ERROR) then handle_system_error payload event_id
  else Ret false.
End AuditEventHandler.

Module NotificationEventHandler.
Definition notification_reads : list string :=
  ["user_id"; "notification_type"; "title"; "message"; "metadata"].
Definition handle_share_issuance_notification (payload event_id : pyval) : py bool :=
  try_reads_then_true payload notification_reads.
Definition handle_certificate_notification (payload event_id : pyval) : py bool :=
  try_reads_then_true payload notification_reads.
Definition handle_system_alert (payload event_id : pyval) : py bool :=
  try_reads_then_true payload notification_reads.

(** [NotificationEventHandler.handle] (consumer.py:261-272). *)
Definition handle (payload event_id : pyval) : py bool :=
  let* notification_type := py_get payload "notification_type" in
  if eq_str notification_type "share_issuance" then handle_share_issuance_notification payload event_id
  else if eq_str notification_type "certificate_generated" then handle_certificate_notification payload event_id
  else if eq_str notification_type "system_alert" then handle_system_alert payload event_id
  else Ret false.
End NotificationEventHandler.

Module SystemEventHandler.
Definition handle_application_startup (payload event_id : pyval) : py bool :=
  try_reads_then_true payload ["event"; "version"; "environment"].
Definition handle_database_backup (payload event_id : pyval) : py bool :=
  try_reads_then_true payload ["event"; "backup_path"; "backup_size"].

(** [SystemEventHandler.handle] (consumer.py:310-319). *)
Definition handle (payload event_id : pyval) : py bool :=
  let* event := py_get payload "event" in
  if eq_str event "application_startup" then handle_application_startup payload event_id
  else if eq_str event "database_backup" then handle_database_backup payload event_id
  else Ret false.
End SystemEventHandler.

(* ------------------------------------------------------------------ *)
(** * [EventConsumer.callback] *)

(** The consumer's three handler attributes (any [handle] methods, as
    when a test replaces one). *)
Record EventConsumer : Type := {
  audit_handler : pyval -> pyval -> py bool;
  notification_handler : pyval -> pyval -> py bool;
  system_handler : pyval -> pyval -> py bool
}.

(** [EventConsumer.__init__]: the specialised handlers. *)
Definition default_consumer : EventConsumer := {|
  audit_handler := AuditEventHandler.handle;
  notification_handler := NotificationEventHandler.handle;
  system_handler := SystemEventHandler.handle
|}.

(** Channel calls made by the callback; [basic_ack] and [basic_nack]
    return normally in this model. *)
Inductive channel_call : Type :=
| BasicAck (delivery_tag : Z)
| BasicNack (delivery_tag : Z) (requeue : bool).

(** Whether the router sends [event_type] to a category handler. *)
Definition routed (event_type : pyval) : bool :=
  in_event_type_values event_type || eq_str event_type "notification"
  || eq_str event_type "system".

(** The routing of callback (consumer.py:378-388). *)
Definition route (self : EventConsumer) (event_type payload event_id : pyval) : py bool :=
  if in_event_type_values event_type then audit_handler self payload event_id
  else if eq_str event_type "notification" then notification_handler self payload event_id
  else if eq_str event_type "system" then system_handler self payload event_id
  else Ret true.

(** [EventConsumer.callback] (consumer.py:368-399). *)
Definition callback (self : EventConsumer) (delivery_tag : Z) (body : string)
  : list channel_call :=
  let outcome : py bool :=
    let* message := json_loads body in
    let* event_type := py_get message "event_type" in
    let* payload := py_get_default message "payload" (PDict []) in
    let* event_id := py_get message "event_id" in
    route self event_type payload event_id in
  match outcome with
  | Ret success =>
      if success then [BasicAck delivery_tag] else [BasicNack delivery_tag true]
  | Raise _ => [BasicNack delivery_tag true]
  end.

(* ------------------------------------------------------------------ *)
(** * The durable publisher (src/events/publisher.py) *)

(** [str(int)] refuses an int of more than 4300 digits
    ([sys.get_int_max_str_digits()], [ValueError]). *)
Definition int_str_limit : Z := Eval vm_compute in 10 ^ 4300.

Definition int_str_ok (z : Z) : bool := Z.abs z <? int_str_limit.

(** What [json.dumps] accepts: JSON scalars, lists, tuples and dicts of
    them; a [Decimal] or another object raises [TypeError], an int of
    more than 4300 digits [ValueError]. *)
Fixpoint json_serializable (v : pyval) : bool :=
  match v with
  | PInt z => int_str_ok z
  | PNone | PBool _ | PFloat _ | PStr _ => true
  | PList l | PTuple l => forallb json_serializable l
  | PDict d => forallb (fun kv => json_serializable (snd kv)) d
  | PDecimal _ _ | PObj _ => false
  end.

(** The publisher's attributes: [self.connection] ([None], or a
    connection with its [is_closed] flag) and whether [self.channel] is
    a channel object (else [None]). *)
Record BasePublisher : Type := {
  connection : option bool;
  channel : bool
}.

Definition new_publisher : BasePublisher := {| connection := None; channel := false |}.

(** How the broker behaves during one call: whether
    [pika.BlockingConnection(...)], [connection.channel()], the queue and
    exchange declarations and [basic_publish] succeed; each failure is
    an exception. *)
Record Broker : Type := {
  accepts_connection : bool;
  opens_channel : bool;
  accepts_declarations : bool;
  accepts_publish : bool
}.

(** [BasePublisher.connect] (publisher.py:31-53): the attributes are
    assigned one after the other, the exception is logged and re-raised. *)
Definition connect (self : BasePublisher) (b : Broker) : BasePublisher * py unit :=
  if accepts_connection b then
    let s1 := {| connection := Some false; channel := channel self |} in
    if opens_channel b then
      let s2 := {| connection := Some false; channel := true |} in
      if accepts_declarations b then (s2, Ret tt) else (s2, Raise ChannelError)
    else (s1, Raise ChannelError)
  else (self, Raise AMQPConnectionError).

(** [not self.connection or self.connection.is_closed]. *)
Definition needs_connect (self : BasePublisher) : bool :=
  match connection self with
  | None => true
  | Some is_closed => is_closed
  end.

(** A message handed to the broker: routing key and message dict. *)
Definition sent := (string * pyval)%type.

(** The [try] body of [_publish_message]; a message [json.dumps]
    refuses raises [TypeError] here (a [ValueError] for a too long int,
    which the caller catches the same way). *)
Definition publish_message_body (self : BasePublisher) (b : Broker)
  (message : pyval) (routing_key : string)
  : BasePublisher * py bool * list sent :=
  let '(s1, r) := if needs_connect self then connect self b else (self, Ret tt) in
  match r with
  | Raise e => (s1, Raise e, [])
  | Ret _ =>
      if negb (channel s1) then (s1, Raise AttributeError, [])
      else if negb (json_serializable message) then (s1, Raise TypeError, [])
      else if accepts_publish b then (s1, Ret true, [(routing_key, message)])
      else (s1, Raise ChannelError, [])
  end.

(** [BasePublisher._publish_message] (publisher.py:97-127):
    [except Exception: ... return False]. *)
Definition _publish_message (self : BasePublisher) (b : Broker)
  (message : pyval) (routing_key : string)
  : BasePublisher * py bool * list sent :=
  match publish_message_body self b message routing_key with
  | (s1, Raise _, out) => (s1, Ret false, out)
  | res => res
  end.

(** The calls of [AuditEventPublisher] (publisher.py:138-284), with
    their arguments. *)
Inductive AuditPublishCall : Type :=
| PublishUserLogin (user_id user_email user_role ip_address user_agent : pyval)
| PublishUserLogout (user_id user_email session_duration : pyval)
| PublishShareholderCreated (user_id shareholder_data : pyval)
| PublishShareholderUpdated (user_id shareholder_id previous_data new_data : pyval)
| PublishShareIssued (user_id shareholder_id share_data : pyval)
| PublishCertificateGenerated (user_id shareholder_id certificate_path : pyval)
| PublishPermissionChanged (admin_user_id target_user_id old_role new_role : pyval)
| PublishDataExport (user_id export_type export_format record_count : pyval)
| PublishSystemError (error_type error_message stack_trace : pyval).

(** The message dict [{"event_id", "event_type", "timestamp", "payload"}]. *)
Definition wire_message (event_id : string) (t : EventTypeEnum) (timestamp : string)
  (payload : list (string * pyval)) : pyval :=
  PDict [("event_id", PStr event_id); ("event_type", PStr (EventTypeEnum_value t));
         ("timestamp", PStr timestamp); ("payload", PDict payload)].

(** The message and routing key each method builds; [event_id] is
    [str(uuid.uuid4())] and [timestamp] is [datetime.utcnow().isoformat()]. *)
Definition audit_message (event_id timestamp : string) (c : AuditPublishCall)
  : pyval * string :=
  match c with
  | PublishUserLogin u e r ip ua =>
      (wire_message event_id USER_LOGIN timestamp
         [("user_id", u); ("user_email", e); ("user_role", r);
          ("ip_address", ip); ("user_agent", ua)], "audit.user.login")
  | PublishUserLogout u e d =>
      (wire_message event_id USER_LOGOUT timestamp
         [("user_id", u); ("user_email", e); ("session_duration", d)], "audit.user.logout")
  | PublishShareholderCreated u sd =>
      (wire_message event_id SHAREHOLDER_CREATED timestamp
         [("user_id", u); ("shareholder_data", sd)], "audit.shareholder.created")
  | PublishShareholderUpdated u sid p n =>
      (wire_message event_id SHAREHOLDER_UPDATED timestamp
         [("user_id", u); ("shareholder_id", sid); ("previous_data", p); ("new_data", n)],
       "audit.shareholder.updated")
  | PublishShareIssued u sid sd =>
      (wire_message event_id SHARE_ISSUED timestamp
         [("user_id", u); ("shareholder_id", sid); ("share_data", sd)], "audit.share.issued")
  | PublishCertificateGenerated u sid cp =>
      (wire_message event_id CERTIFICATE_GENERATED timestamp
         [("user_id", u); ("shareholder_id", sid); ("certificate_path", cp)],
       "audit.certificate.generated")
  | PublishPermissionChanged a t o n =>
      (wire_message event_id PERMISSION_CHANGED timestamp
         [("admin_user_id", a); ("target_user_id", t); ("old_role", o); ("new_role", n)],
       "audit.permission.changed")
  | PublishDataExport u et ef rc =>
      (wire_message event_id DATA_EXPORT timestamp
         [("user_id", u); ("export_type", et); ("export_format", ef); ("record_count", rc)],
       "audit.data.export")
  | PublishSystemError et em st =>
      (wire_message event_id SYSTEM_ERROR timestamp
         [("error_type", et); ("error_message", em); ("stack_trace", st)], "audit.system.error")
  end.

(** [AuditEventPublisher.publish_*]: build the message, then
    [return self._publish_message(message, routing_key)]. *)
Definition audit_publish (self : BasePublisher) (b : Broker)
  (event_id timestamp : string) (c : AuditPublishCall)
  : BasePublisher * py bool * list sent :=
  let '(message, routing_key) := audit_message event_id timestamp c in
  _publish_message self b message routing_key.

(* ------------------------------------------------------------------ *)
(** * The in-process event bus (src/bus_event/events) *)

(** [EventType] of models.py. *)
Inductive EventType : Type :=
| ET_USER_LOGIN | ET_USER_LOGOUT | ET_SHAREHOLDER_CREATED | ET_SHAREHOLDER_UPDATED
| ET_SHARE_ISSUED | ET_CERTIFICATE_GENERATED | ET_SYSTEM_ERROR | ET_AUDIT_LOG
| ET_NOTIFICATION.

Definition EventType_value (t : EventType) : string :=
  match t with
  | ET_USER_LOGIN => "user.login"
  | ET_USER_LOGOUT => "user.logout"
  | ET_SHAREHOLDER_CREATED => "shareholder.created"
  | ET_SHAREHOLDER_UPDATED => "shareholder.updated"
  | ET_SHARE_ISSUED => "share.issued"
  | ET_CERTIFICATE_GENERATED => "certificate.generated"
  | ET_SYSTEM_ERROR => "system.error"
  | ET_AUDIT_LOG => "audit.log"
  | ET_NOTIFICATION => "notification"
  end.

Definition EventType_eqb (a b : EventType) : bool :=
  String.eqb (EventType_value a) (EventType_value b).

(** [Event] of models.py. *)
Record Event : Type := {
  ev_id : string;
  ev_type : EventType;
  ev_payload : list (string * pyval);
  ev_metadata : list (string * pyval);
  ev_source : pyval
}.

Module Bus.

(** Handlers are Python callables, known by their identity; [run h ev]
    is what calling [h(event)] does: a returned value or an exception
    (an [Exception] subclass). *)
Definition handler := nat.

Section EventBus.
Variable run : handler -> Event -> py pyval.

(** [EventBus]: the two [defaultdict(list)] registries and the events
    put on [_event_queue]. *)
Record EventBus : Type := {
  _handlers : EventType -> list handler;
  _async_handlers : EventType -> list handler;
  _event_queue : list Event
}.

Definition empty_bus : EventBus :=
  {| _handlers := fun _ => []; _async_handlers := fun _ => []; _event_queue := [] |}.

Definition append_at (reg : EventType -> list handler) (t : EventType) (h : handler)
  : EventType -> list handler :=
  fun t' => if EventType_eqb t t' then (reg t' ++ [h])%list else reg t'.

(** [EventBus.subscribe] (event_bus.py:28-43). *)
Definition subscribe (self : EventBus) (t : EventType) (h : handler) (async_handler : bool)
  : EventBus :=
  if async_handler then
    {| _handlers := _handlers self; _async_handlers := append_at (_async_handlers self) t h;
       _event_queue := _event_queue self |}
  else
    {| _handlers := append_at (_handlers self) t h; _async_handlers := _async_handlers self;
       _event_queue := _event_queue self |}.

(** Log lines and calls observable during a publish. *)
Inductive trace_entry : Type :=
| Invoked (h : handler)
| LogWarning (h : handler)
| LogError (h : handler)
| LogPublished (id : string).

(** One iteration of the loop of [_handle_sync]:
    [try: result = handler(event); if result is False: log warning;
     except Exception: log error]. *)
Definition run_sync_handler (event : Event) (h : handler) : list trace_entry :=
  Invoked h ::
  match run h event with
  | Ret (PBool false) => [LogWarning h]
  | Ret _ => []
  | Raise _ => [LogError h]
  end.

(** [EventBus._handle_sync] (event_bus.py:91-101). *)
Definition _handle_sync (self : EventBus) (event : Event) : list trace_entry :=
  flat_map (run_sync_handler event) (_handlers self (ev_type event)).

(** [EventBus.publish] (event_bus.py:66-89); [loop_running] says whether
    [asyncio.create_task] finds a running event loop (else it raises
    [RuntimeError], which the [except] turns into [return False]). *)
Definition publish (self : EventBus) (loop_running : bool) (event : Event)
  : EventBus * py bool * list trace_entry :=
  let tr := _handle_sync self event in
  match _async_handlers self (ev_type event) with
  | [] => (self, Ret true, (tr ++ [LogPublished (ev_id event)])%list)
  | _ :: _ =>
      if loop_running then
        ({| _handlers := _handlers self; _async_handlers := _async_handlers self;
            _event_queue := (_event_queue self ++ [event])%list |},
         Ret true, (tr ++ [LogPublished (ev_id event)])%list)
      else (self, Ret false, tr)
  end.

(** A registration made at process start: [subscribe(t, h, async_handler)]. *)
Definition subscription := (EventType * handler * bool)%type.

Definition subscribe_all (self : EventBus) (subs : list subscription) : EventBus :=
  fold_left (fun b s => let '(t, h, a) := s in subscribe b t h a) subs self.

(** The handlers called by a publish, in call order. *)
Definition invoked (tr : list trace_entry) : list handler :=
  flat_map (fun e => match e with Invoked h => [h] | _ => [] end) tr.

End EventBus.
End Bus.

(* ------------------------------------------------------------------ *)
(** * The audit table (src/audit/service/audit_system.py) *)

(** A row of [audit_events]; [created_at] and [processed_at] are
    timestamps ([PInt] seconds) or [None]. *)
Record AuditEvent : Type := {
  ae_id : pyval;
  ae_event_type : pyval;
  ae_event_id : pyval;
  ae_user_id : pyval;
  ae_user_email : pyval;
  ae_user_role : pyval;
  ae_resource_type : pyval;
  ae_resource_id : pyval;
  ae_action : pyval;
  ae_description : pyval;
  ae_event_data : pyval;
  ae_previous_data : pyval;
  ae_created_at : pyval;
  ae_processed_at : pyval;
  ae_status : pyval
}.

Inductive column : Type :=
| C_id | C_event_type | C_event_id | C_user_id | C_user_email | C_user_role
| C_resource_type | C_resource_id | C_action | C_description | C_event_data
| C_previous_data | C_created_at | C_processed_at | C_status.

Definition columns : list column :=
  [C_id; C_event_type; C_event_id; C_user_id; C_user_email; C_user_role;
   C_resource_type; C_resource_id; C_action; C_description; C_event_data;
   C_previous_data; C_created_at; C_processed_at; C_status].

Definition column_name (c : column) : string :=
  match c with
  | C_id => "id" | C_event_type => "event_type" | C_event_id => "event_id"
  | C_user_id => "user_id" | C_user_email => "user_email" | C_user_role => "user_role"
  | C_resource_type => "resource_type" | C_resource_id => "resource_id"
  | C_action => "action" | C_description => "description" | C_event_data => "event_data"
  | C_previous_data => "previous_data" | C_created_at => "created_at"
  | C_processed_at => "processed_at" | C_status => "status"
  end.

Definition col_value (c : column) (r : AuditEvent) : pyval :=
  match c with
  | C_id => ae_id r | C_event_type => ae_event_type r | C_event_id => ae_event_id r
  | C_user_id => ae_user_id r | C_user_email => ae_user_email r
  | C_user_role => ae_user_role r | C_resource_type => ae_resource_type r
  | C_resource_id => ae_resource_id r | C_action => ae_action r
  | C_description => ae_description r | C_event_data => ae_event_data r
  | C_previous_data => ae_previous_data r | C_created_at => ae_created_at r
  | C_processed_at => ae_processed_at r | C_status => ae_status r
  end.


Inductive class_attr : Type :=
| AColumn (c : column)
| AOther (v : pyval).

Definition find_column (name : string) : option column :=
  find (fun c => String.eqb (column_name c) name) columns.

(** [getattr(AuditEvent, name)], [None] for [AttributeError]: a column,
    or else the attribute of that name in [attrs], the class's other
    attributes (such as [other_class_attrs]). *)
Definition getattr_AuditEvent (attrs : list (string * pyval)) (name : string)
  : option class_attr :=
  match find_column name with
  | Some c => Some (AColumn c)
  | None =>
      match find (fun kv => String.eqb (fst kv) name) attrs with
      | Some (_, v) => Some (AOther v)
      | None => None
      end
  end.

(** The table: the committed rows, in insertion order. *)
Definition table := list AuditEvent.

(** SQL [=] between stored values (NULL equals nothing). *)
Definition sql_eq (a b : pyval) : bool :=
  match a, b with
  | PStr x, PStr y => String.eqb x y
  | PInt x, PInt y => x =? y
  | PBool x, PBool y => Bool.eqb x y
  | _, _ => false
  end.

Fixpoint max_id (t : table) : Z :=
  match t with
  | [] => 0
  | r :: t' => match ae_id r with PInt i => Z.max i (max_id t') | _ => max_id t' end
  end.

(** Characters of a UTF-8 string: the bytes that do not continue a
    sequence. *)
Definition char_length (s : string) : nat :=
  List.length (filter (fun c => negb (Json.cont c)) (list_ascii_of_string s)).

(** The bytes after the first [n] characters. *)
Fixpoint drop_chars (n : nat) (l : list ascii) : list ascii :=
  match l with
  | [] => []
  | c :: l' =>
      if Json.cont c then drop_chars n l'
      else match n with O => l | S n' => drop_chars n' l' end
  end.

(** PostgreSQL refuses a string for [VARCHAR(n)] when a character past
    the [n]-th is not a space (excess spaces are cut off). *)
Definition too_long (n : nat) (s : string) : bool :=
  existsb (fun c => negb (Ascii.eqb c " "%char)) (drop_chars n (list_ascii_of_string s)).

Definition has_nul (s : string) : bool :=
  existsb (fun c => Ascii.eqb c "000"%char) (list_ascii_of_string s).

(** The [String(n)] columns and their lengths. *)
Definition string_length (c : column) : option nat :=
  match c with
  | C_event_type | C_user_role | C_resource_type => Some 50%nat
  | C_event_id | C_resource_id | C_action => Some 100%nat
  | C_user_email => Some 255%nat
  | C_status => Some 20%nat
  | _ => None
  end.

Definition is_json_column (c : column) : bool :=
  match c with C_event_data | C_previous_data => true | _ => false end.

(** No NaN or infinity in a JSON value: [json.dumps] writes them as
    [NaN] and [Infinity], which PostgreSQL's [json] type does not parse. *)
Fixpoint json_finite (v : pyval) : bool :=
  match v with
  | PFloat f => match f with S754_zero _ | S754_finite _ _ _ => true | _ => false end
  | PList l | PTuple l => forallb json_finite l
  | PDict d => forallb (fun kv => json_finite (snd kv)) d
  | _ => true
  end.

(** A value the database refuses for a column ([DataError]): a string
    too long for its [String(n)] column, a string with a NUL character,
    JSON with NaN or an infinity. *)
Definition value_refused (c : column) (v : pyval) : bool :=
  if is_json_column c then negb (json_finite v)
  else match v with
       | PStr s =>
           has_nul s || match string_length c with Some n => too_long n s | None => false end
       | _ => false
       end.

Definition int4 (z : Z) : bool := (-2147483648 <=? z) && (z <=? 2147483647).

(** A value of the column's type (for NULL the NOT NULL constraints
    decide): [Integer] holds a 32-bit int, [String(n)] and [Text] a
    string that fits, [JSON] a value [json.dumps] writes and PostgreSQL
    reads, [DateTime] a timestamp.  The model orders and compares these;
    other values (a dict for a string column, a string for [user_id])
    are errors of the driver or the database that [insert_row] does not
    model. *)
Definition value_fits (c : column) (v : pyval) : bool :=
  match c, v with
  | _, PNone => true
  | (C_id | C_user_id), PInt z => int4 z
  | C_description, PStr s => negb (has_nul s)
  | (C_event_type | C_event_id | C_user_email | C_user_role | C_resource_type
     | C_resource_id | C_action | C_status), PStr s =>
      negb (has_nul s)
      && match string_length c with Some n => Nat.leb (char_length s) n | None => true end
  | (C_event_data | C_previous_data), v => json_serializable v && json_finite v
  | (C_created_at | C_processed_at), PInt _ => true
  | _, _ => false
  end.

Definition row_fits (r : AuditEvent) : bool :=
  forallb (fun c => value_fits c (col_value c r)) columns.

(** [INSERT] at commit: the column defaults ([id] from the table's
    sequence, here the number after the largest stored id, as when
    every id came from the sequence; [created_at] = now, the database
    clock; [status] = "processed"); the JSON columns
    serialized by SQLAlchemy with [json.dumps] ([StatementError] when it
    raises); the values the database refuses ([DataError]); then the NOT
    NULL constraints and the PRIMARY KEY and UNIQUE constraints, whose
    violation is an [IntegrityError].  On an error the table is
    unchanged. *)
Definition with_defaults (t : table) (now : Z) (r : AuditEvent) : AuditEvent := {|
  ae_id := match ae_id r with PNone => PInt (max_id t + 1) | v => v end;
  ae_event_type := ae_event_type r; ae_event_id := ae_event_id r;
  ae_user_id := ae_user_id r; ae_user_email := ae_user_email r;
  ae_user_role := ae_user_role r; ae_resource_type := ae_resource_type r;
  ae_resource_id := ae_resource_id r; ae_action := ae_action r;
  ae_description := ae_description r; ae_event_data := ae_event_data r;
  ae_previous_data := ae_previous_data r;
  ae_created_at := match ae_created_at r with PNone => PInt now | v => v end;
  ae_processed_at := ae_processed_at r;
  ae_status := match ae_status r with PNone => PStr "processed" | v => v end |}.

Definition insert_row (t : table) (now : Z) (r : AuditEvent) : py (table * AuditEvent) :=
  let r' := with_defaults t now r in
  let not_null (v : pyval) := match v with PNone => false | _ => true end in
  if negb (json_serializable (ae_event_data r') && json_serializable (ae_previous_data r'))
  then Raise StatementError
  else if existsb (fun c => value_refused c (col_value c r')) columns then Raise DataError
  else if negb (not_null (ae_event_type r') && not_null (ae_event_id r') && not_null (ae_action r'))
  then Raise IntegrityError
  else if existsb (fun x => sql_eq (ae_id x) (ae_id r')) t then Raise IntegrityError
  else if existsb (fun x => sql_eq (ae_event_id x) (ae_event_id r')) t then Raise IntegrityError
  else Ret ((t ++ [r'])%list, r').

Definition empty_row : AuditEvent := {|
  ae_id := PNone; ae_event_type := PNone; ae_event_id := PNone; ae_user_id := PNone;
  ae_user_email := PNone; ae_user_role := PNone; ae_resource_type := PNone;
  ae_resource_id := PNone; ae_action := PNone; ae_description := PNone;
  ae_event_data := PNone; ae_previous_data := PNone; ae_created_at := PNone;
  ae_processed_at := PNone; ae_status := PNone |}.

Definition set_column (r : AuditEvent) (c : column) (v : pyval) : AuditEvent :=
  {| ae_id := match c with C_id => v | _ => ae_id r end;
     ae_event_type := match c with C_event_type => v | _ => ae_event_type r end;
     ae_event_id := match c with C_event_id => v | _ => ae_event_id r end;
     ae_user_id := match c with C_user_id => v | _ => ae_user_id r end;
     ae_user_email := match c with C_user_email => v | _ => ae_user_email r end;
     ae_user_role := match c with C_user_role => v | _ => ae_user_role r end;
     ae_resource_type := match c with C_resource_type => v | _ => ae_resource_type r end;
     ae_resource_id := match c with C_resource_id => v | _ => ae_resource_id r end;
     ae_action := match c with C_action => v | _ => ae_action r end;
     ae_description := match c with C_description => v | _ => ae_description r end;
     ae_event_data := match c with C_event_data => v | _ => ae_event_data r end;
     ae_previous_data := match c with C_previous_data => v | _ => ae_previous_data r end;
     ae_created_at := match c with C_created_at => v | _ => ae_created_at r end;
     ae_processed_at := match c with C_processed_at => v | _ => ae_processed_at r end;
     ae_status := match c with C_status => v | _ => ae_status r end |}.

(** [AuditEvent] called with keyword arguments: every key must name a column ([TypeError]
    otherwise). *)
Fixpoint AuditEvent_kwargs (kwargs : list (string * pyval)) : py AuditEvent :=
  match kwargs with
  | [] => Ret empty_row
  | (k, v) :: rest =>
      let* r := AuditEvent_kwargs rest in
      match find (fun c => String.eqb (column_name c) k) columns with
      | Some c => Ret (set_column r c v)
      | None => Raise TypeError
      end
  end.

(** [AuditEventService.create_event] (audit_service.py:20-34); [uuid] is
    [str(uuid4())] and [now] the database clock.  The result is the
    table after commit or rollback, and the returned row or the raised
    exception. *)
Definition create_event (db : table) (uuid : string) (now : Z)
  (event_data : list (string * pyval)) : table * py AuditEvent :=
  let event_data' :=
    if existsb (fun kv => String.eqb (fst kv) "event_id") event_data then event_data
    else dict_set event_data "event_id" (PStr uuid) in
  match AuditEvent_kwargs event_data' with
  | Raise e => (db, Raise e)
  | Ret event =>
      match insert_row db now event with
      | Ret (db', row) => (db', Ret row)
      | Raise IntegrityError => (db, Raise AuditEventError)
      | Raise e => (db, Raise e)
      end
  end.

(** Number of stored rows with this [event_id]. *)
Definition count_event_id (t : table) (eid : string) : nat :=
  List.length (filter (fun r => eq_str (ae_event_id r) eid) t).

(** [x or y] on Python values. *)
Definition py_or (x y : pyval) : pyval := if truthy x then x else y.

(** [a or b if metadata else None]: Python reads the conditional
    expression as [(a or b) if metadata else None]. *)
Definition field_from (payload metadata : pyval) (k : string) : py pyval :=
  if truthy metadata then
    let* p := py_get payload k in
    let* m := py_get metadata k in
    Ret (py_or p m)
  else Ret PNone.

(** [action_mapping.get(event.type.value, "unknown")] (handlers.py:108-119). *)
Definition action_mapping (t : EventType) : pyval :=
  match t with
  | ET_USER_LOGIN => PStr "login"
  | ET_USER_LOGOUT => PStr "logout"
  | ET_SHAREHOLDER_CREATED => PStr "create"
  | ET_SHAREHOLDER_UPDATED => PStr "update"
  | ET_SHARE_ISSUED => PStr "create"
  | ET_CERTIFICATE_GENERATED => PStr "generate"
  | ET_SYSTEM_ERROR => PStr "error"
  | ET_NOTIFICATION => PStr "notification"
  | ET_AUDIT_LOG => PStr "unknown"
  end.

(** The row built by [handle_audit_persistence] (handlers.py:104-140);
    [now] is [datetime.utcnow()]. *)
Definition audit_row_of_event (event : Event) (now : Z) : py AuditEvent :=
  let payload := PDict (ev_payload event) in
  let metadata := PDict (ev_metadata event) in
  let* a := py_get payload "action" in
  let action := py_or a (action_mapping (ev_type event)) in
  let converted_payload := convert_decimal_to_float payload in
  let* user_id := field_from payload metadata "user_id" in
  let* user_email := field_from payload metadata "user_email" in
  let* user_role := field_from payload metadata "user_role" in
  let* resource_type := field_from payload metadata "resource_type" in
  let* resource_id := field_from payload metadata "resource_id" in
  let* description := field_from payload metadata "description" in
  let* pd := py_get payload "previous_data" in
  Ret {| ae_id := PNone;
         ae_event_type := PStr (EventType_value (ev_type event));
         ae_event_id := PStr (ev_id event);
         ae_user_id := user_id; ae_user_email := user_email; ae_user_role := user_role;
         ae_resource_type := resource_type; ae_resource_id := resource_id;
         ae_action := action; ae_description := description;
         ae_event_data := converted_payload;
         ae_previous_data := if truthy pd then convert_decimal_to_float pd else PNone;
         ae_created_at := PNone; ae_processed_at := PInt now;
         ae_status := PStr "processed" |}.

(** [handle_audit_persistence] (handlers.py:94-156): add, commit; any
    exception is logged and the handler returns [False]; closing the
    session drops an uncommitted insert. *)
Definition handle_audit_persistence (db : table) (now : Z) (event : Event)
  : table * py pyval :=
  match audit_row_of_event event now with
  | Raise _ => (db, Ret (PBool false))
  | Ret row =>
      match insert_row db now row with
      | Ret (db', _) => (db', Ret (PBool true))
      | Raise _ => (db, Ret (PBool false))
      end
  end.

(* ------------------------------------------------------------------ *)
(** * [AuditEventService.get_events] *)

(** PostgreSQL's ordering of a column's values: numbers and timestamps
    by value, text in byte order (the C collation), NULL after every
    value ([ASC] puts NULLs last, [DESC] first).  A column holds one
    type; the rank only places values of different types. *)
Definition sql_rank (v : pyval) : Z :=
  match v with
  | PBool _ | PInt _ => 0 | PStr _ => 1 | PNone => 3 | _ => 2
  end.

Definition sql_le (a b : pyval) : bool :=
  match a, b with
  | PInt x, PInt y => x <=? y
  | PBool x, PBool y => implb x y
  | PBool x, PInt y => (if x then 1 else 0) <=? y
  | PInt x, PBool y => x <=? (if y then 1 else 0)
  | PStr x, PStr y => match String.compare x y with Gt => false | _ => true end
  | _, _ => sql_rank a <=? sql_rank b
  end.

(** [ORDER BY key ASC] or [DESC] as a stable insertion sort (rows with
    equal keys keep table order). *)
Fixpoint insert_by (before : AuditEvent -> AuditEvent -> bool) (r : AuditEvent)
  (l : list AuditEvent) : list AuditEvent :=
  match l with
  | [] => [r]
  | x :: l' => if before x r then x :: insert_by before r l' else r :: l
  end.

Fixpoint sort_by (before : AuditEvent -> AuditEvent -> bool) (l : list AuditEvent)
  : list AuditEvent :=
  match l with
  | [] => []
  | x :: l' => insert_by before x (sort_by before l')
  end.

(** [x] sorts strictly before [r]: for descending order [key x > key r],
    for ascending order [key x < key r]. *)
Definition order_before (c : column) (desc : bool) (x r : AuditEvent) : bool :=
  if desc then negb (sql_le (col_value c x) (col_value c r))
  else negb (sql_le (col_value c r) (col_value c x)).

(** A WHERE condition: on a column, or a constant from comparing a
    non-column attribute with a Python value. *)
Inductive condition : Type :=
| CondEq (c : column) (v : pyval)
| CondIn (c : column) (vs : list pyval)
| CondConst (b : bool).

Definition holds (r : AuditEvent) (cd : condition) : bool :=
  match cd with
  | CondEq c v => sql_eq (col_value c r) v
  | CondIn c vs => existsb (sql_eq (col_value c r)) vs
  | CondConst b => b
  end.

(** The filter loop of [get_events] (audit_service.py:62-71):
    [hasattr(AuditEvent, key) and value is not None], then [.in_] for a
    list and [==] otherwise; on a non-column attribute (a string, None,
    an int or an object compared by identity) [.in_] is an
    [AttributeError]. *)
Fixpoint conditions_of (attrs : list (string * pyval)) (filters : list (string * pyval))
  : py (list condition) :=
  match filters with
  | [] => Ret []
  | (key, value) :: rest =>
      let* cs := conditions_of attrs rest in
      match getattr_AuditEvent attrs key, value with
      | None, _ | _, PNone => Ret cs
      | Some (AColumn c), PList vs => Ret (CondIn c vs :: cs)
      | Some (AColumn c), v => Ret (CondEq c v :: cs)
      | Some (AOther _), PList _ => Raise AttributeError
      | Some (AOther a), v => Ret (CondConst (sql_eq a v) :: cs)
      end
  end.

(** [if filters:] ... the conditions, none for [None] or [{}]. *)
Definition filter_conditions (attrs : list (string * pyval))
  (filters : option (list (string * pyval))) : py (list condition) :=
  match filters with Some f => conditions_of attrs f | None => Ret [] end.

(** The column [desc(order_col)] or [asc(order_col)] orders by, for
    [order_col = getattr(AuditEvent, order_by, AuditEvent.created_at)].
    SQLAlchemy's coercion turns a string into a textual label reference,
    which the compiler resolves against the selected columns' names
    ([CompileError] when none matches), and [None] or a bool into the
    constant [NULL], [true] or [false], which PostgreSQL (15 and later)
    refuses as an ORDER BY item ([ProgrammingError]); any other value
    is refused by the coercion ([ArgumentError]). *)
Definition order_column (a : option class_attr) : py column :=
  match a with
  | Some (AColumn c) => Ret c
  | None => Ret C_created_at
  | Some (AOther (PStr s)) =>
      match find_column s with Some c => Ret c | None => Raise CompileError end
  | Some (AOther (PNone | PBool _)) => Raise ProgrammingError
  | Some (AOther _) => Raise ArgumentError
  end.

(** [AuditEventService.get_events] (audit_service.py:50-79) for a class
    whose non-column attributes are [attrs]; [skip] and [limit] are
    non-negative. *)
Definition get_events (attrs : list (string * pyval)) (db : table)
  (filters : option (list (string * pyval))) (skip limit : nat) (order_by : string)
  (order_desc : bool) : py (list AuditEvent) :=
  let* conds := filter_conditions attrs filters in
  let selected := filter (fun r => forallb (holds r) conds) db in
  let* order_col := order_column (getattr_AuditEvent attrs order_by) in
  Ret (firstn limit (skipn skip (sort_by (order_before order_col order_desc) selected))).

(** The default arguments of [get_events]. *)
Definition get_events_default (attrs : list (string * pyval)) (db : table)
  : py (list AuditEvent) :=
  get_events attrs db None 0 100 "created_at" true.

(* ================================================================== *)
(** * Properties *)

(* ------------------------------------------------------------------ *)
(** ** Decimal normalisation *)

(** A path into nested dicts and lists: dict keys and list indexes. *)
Inductive selector : Type :=
| SKey (k : string)
| SIdx (n : nat).

Fixpoint dict_lookup (d : list (string * pyval)) (k : string) : option pyval :=
  match d with
  | [] => None
  | (k', v) :: d' => if String.eqb k' k then Some v else dict_lookup d' k
  end.

Fixpoint at_path (p : list selector) (v : pyval) : option pyval :=
  match p with
  | [] => Some v
  | SKey k :: p' =>
      match v with
      | PDict d => match dict_lookup d k with Some x => at_path p' x | None => None end
      | _ => None
      end
  | SIdx n :: p' =>
      match v with
      | PList l => match nth_error l n with Some x => at_path p' x | None => None end
      | _ => None
      end
  end.

(** Leaves: values that are neither dicts nor lists. *)
Definition is_leaf (v : pyval) : bool :=
  match v with PDict _ | PList _ => false | _ => true end.

Definition is_decimal (v : pyval) : bool :=
  match v with PDecimal _ _ => true | _ => false end.

Lemma dict_lookup_convert (d : list (string * pyval)) (k : string) :
  dict_lookup (map (fun kv => (fst kv, convert_decimal_to_float (snd kv))) d) k
  = option_map convert_decimal_to_float (dict_lookup d k).
Proof.
  induction d as [| [k' v] d IH]; simpl; [reflexivity |].
  destruct (String.eqb k' k); [reflexivity | exact IH].
Qed.

Lemma at_path_convert (p : list selector) :
  forall v, at_path p (convert_decimal_to_float v)
            = option_map convert_decimal_to_float (at_path p v).
Proof.
  induction p as [| [k | n] p IH]; intros v; [reflexivity | |].
  - destruct v; try reflexivity. simpl.
    rewrite dict_lookup_convert. destruct (dict_lookup d k); simpl; [apply IH | reflexivity].
  - destruct v; try reflexivity. simpl.
    rewrite nth_error_map. destruct (nth_error l n); simpl; [apply IH | reflexivity].
Qed.

Lemma convert_not_decimal (v : pyval) : is_decimal (convert_decimal_to_float v) = false.
Proof. destruct v; reflexivity. Qed.

Lemma convert_leaf (v : pyval) :
  is_leaf v = true ->
  convert_decimal_to_float v
  = match v with PDecimal m e => PFloat (decimal_to_float m e) | x => x end.
Proof. destruct v; simpl; congruence. Qed.

(** The payload of the share-issuance scenario: shares 100 and price
    [Decimal("10.5")]. *)
Definition share_payload : pyval :=
  PDict [("shares", PInt 100); ("price", PDecimal 105 (-1))].

(** C9: [convert_decimal_to_float] turns every [Decimal] reachable through
    nested dicts and lists into [float(Decimal)], leaves every other leaf
    unchanged and keeps the shape (the same paths exist); no [Decimal]
    is left on any path.  On the share payload the price becomes the
    float 10.5 (= 21 * 2^-1) and the shares stay the int 100. *)
Theorem convert_decimal_to_float_spec :
  (forall (v : pyval) (p : list selector),
     (forall x, at_path p v = Some x -> is_leaf x = true ->
        at_path p (convert_decimal_to_float v)
        = Some (match x with PDecimal m e => PFloat (decimal_to_float m e) | y => y end))
     /\ (at_path p v = None <-> at_path p (convert_decimal_to_float v) = None)
     /\ (forall y, at_path p (convert_decimal_to_float v) = Some y -> is_decimal y = false))
  /\ convert_decimal_to_float share_payload
     = PDict [("shares", PInt 100); ("price", PFloat (binary_normalize prec emax 21 (-1) false))].
Proof.
  split; [| vm_compute; reflexivity].
  intros v p. rewrite at_path_convert. split; [| split].
  - intros x Hx Hl. rewrite Hx. simpl. f_equal. now apply convert_leaf.
  - destruct (at_path p v); simpl; split; congruence.
  - intros y Hy. destruct (at_path p v); simpl in Hy; [| discriminate].
    injection Hy as <-. apply convert_not_decimal.
Qed.

(* ------------------------------------------------------------------ *)
(** ** Identifiers of the persisted audit row *)

(** An audit event whose payload names its actor and whose metadata is
    the default empty dict. *)
Definition login_audit_event : Event := {|
  ev_id := "e-1"; ev_type := ET_AUDIT_LOG;
  ev_payload := [("user_id", PStr "u-42"); ("user_email", PStr "a@corp.example");
                 ("user_role", PStr "admin"); ("resource_type", PStr "shareholder");
                 ("resource_id", PStr "S1")];
  ev_metadata := []; ev_source := PNone |}.

(** C3 (the code at the failing input): with empty metadata, the row
    stored by [handle_audit_persistence] has [None] for user_id,
    user_email, user_role, resource_type and resource_id, although the
    payload supplies all five. *)
Theorem audit_persistence_drops_payload_ids :
  snd (handle_audit_persistence [] 1000 login_audit_event) = Ret (PBool true)
  /\ map (fun r => [ae_user_id r; ae_user_email r; ae_user_role r;
                    ae_resource_type r; ae_resource_id r])
         (fst (handle_audit_persistence [] 1000 login_audit_event))
     = [[PNone; PNone; PNone; PNone; PNone]].
Proof. split; vm_compute; reflexivity. Qed.

(* ------------------------------------------------------------------ *)
(** ** Persisting twice under one event_id *)

Lemma sql_eq_str (v : pyval) (s : string) : sql_eq v (PStr s) = eq_str v s.
Proof. destruct v; reflexivity. Qed.

Lemma count_event_id_exists (db : table) (eid : string) :
  (count_event_id db eid >= 1)%nat ->
  existsb (fun x => sql_eq (ae_event_id x) (PStr eid)) db = true.
Proof.
  unfold count_event_id. induction db as [| r db IH]; simpl; [lia |].
  rewrite sql_eq_str. destruct (eq_str (ae_event_id r) eid); simpl; [reflexivity |].
  exact IH.
Qed.

Lemma drop_chars_short (n : nat) (l : list ascii) :
  (List.length (filter (fun c => negb (Json.cont c)) l) <= n)%nat -> drop_chars n l = [].
Proof.
  revert n. induction l as [| c l IH]; intros n H; cbn [drop_chars]; [reflexivity |].
  cbn [filter] in H. destruct (Json.cont c); cbn [negb] in H.
  - apply IH. exact H.
  - destruct n as [| n]; cbn [List.length] in H; [lia |]. apply IH. lia.
Qed.

Lemma not_too_long (n : nat) (s : string) :
  (char_length s <= n)%nat -> too_long n s = false.
Proof. intro H. unfold too_long. rewrite drop_chars_short by exact H. reflexivity. Qed.

Lemma fits_not_refused (c : column) (v : pyval) :
  value_fits c v = true -> value_refused c v = false.
Proof.
  intro H. destruct c, v; cbn [value_fits value_refused is_json_column string_length] in *;
    try reflexivity; try discriminate;
    try (apply andb_true_iff in H as [H1 H2]; apply negb_true_iff in H1; rewrite H1;
         cbn [orb]; apply not_too_long; apply Nat.leb_le; exact H2);
    try (apply negb_true_iff in H; rewrite H; reflexivity);
    apply andb_true_iff in H as [_ H]; rewrite H; reflexivity.
Qed.

Lemma row_fits_col (r : AuditEvent) (c : column) :
  row_fits r = true -> value_fits c (col_value c r) = true.
Proof.
  unfold row_fits. rewrite forallb_forall. intro H. apply H. destruct c; cbn; tauto.
Qed.

(** A row of the column types passes the serialization and the value
    checks of [insert_row]. *)
Lemma row_fits_checks (t : table) (now : Z) (r : AuditEvent) :
  row_fits r = true ->
  json_serializable (ae_event_data (with_defaults t now r))
    && json_serializable (ae_previous_data (with_defaults t now r)) = true
  /\ existsb (fun c => value_refused c (col_value c (with_defaults t now r))) columns = false.
Proof.
  intro H. split.
  - pose proof (row_fits_col r C_event_data H) as H1.
    pose proof (row_fits_col r C_previous_data H) as H2. cbn in H1, H2 |- *.
    destruct (ae_event_data r); cbn in H1 |- *; try discriminate;
      try (apply andb_true_iff in H1 as [-> _]);
      (destruct (ae_previous_data r); cbn in H2 |- *; try discriminate;
       try (apply andb_true_iff in H2 as [-> _])); reflexivity.
  - apply Bool.not_true_iff_false. rewrite existsb_exists. intros [c [_ Hc]].
    pose proof (row_fits_col r c H) as Hr.
    destruct c; cbn [col_value with_defaults ae_id ae_created_at ae_status] in Hc, Hr;
      try (rewrite fits_not_refused in Hc by exact Hr; discriminate);
      match type of Hc with
      | context [match ?x with PNone => _ | _ => _ end] =>
          destruct x; try (rewrite fits_not_refused in Hc by exact Hr; discriminate);
          vm_compute in Hc; discriminate
      end.
Qed.

(** Committing a row of the column types whose event_id is already
    stored fails with [IntegrityError]. *)
Lemma insert_row_duplicate (db : table) (now : Z) (r : AuditEvent) (eid : string) :
  ae_event_id r = PStr eid -> row_fits r = true -> (count_event_id db eid >= 1)%nat ->
  insert_row db now r = Raise IntegrityError.
Proof.
  intros Hr Hf Hc. apply count_event_id_exists in Hc.
  destruct (row_fits_checks db now r Hf) as [Hj Hv].
  unfold insert_row. cbv zeta. rewrite Hj, Hv. cbn [negb].
  change (ae_event_id (with_defaults db now r)) with (ae_event_id r). rewrite Hr, Hc.
  repeat match goal with |- context [if ?b then _ else _] => destruct b end;
  reflexivity.
Qed.

(** Whatever its other values, a row whose event_id is already stored
    is not committed. *)
Lemma insert_row_duplicate_raises (db : table) (now : Z) (r : AuditEvent) (eid : string) :
  ae_event_id r = PStr eid -> (count_event_id db eid >= 1)%nat ->
  exists e, insert_row db now r = Raise e.
Proof.
  intros Hr Hc. apply count_event_id_exists in Hc.
  unfold insert_row. cbv zeta.
  change (ae_event_id (with_defaults db now r)) with (ae_event_id r). rewrite Hr, Hc.
  repeat match goal with |- context [if ?b then _ else _] => destruct b end;
  eexists; reflexivity.
Qed.

Lemma set_column_event_id (r : AuditEvent) (c : column) (v : pyval) :
  ae_event_id (set_column r c v)
  = match c with C_event_id => v | _ => ae_event_id r end.
Proof. destruct c; reflexivity. Qed.

Lemma kwargs_event_id (ed : list (string * pyval)) (r : AuditEvent) :
  AuditEvent_kwargs ed = Ret r -> ae_event_id r = dict_get ed "event_id".
Proof.
  revert r. induction ed as [| [k v] ed IH]; intros r H; cbn [AuditEvent_kwargs] in H.
  - injection H as <-. reflexivity.
  - destruct (AuditEvent_kwargs ed) as [r0 |] eqn:E; cbn [py_bind] in H; [| discriminate].
    destruct (find _ columns) as [c |] eqn:F; [| discriminate].
    injection H as <-. apply find_some in F as [_ F].
    apply String.eqb_eq in F. rewrite set_column_event_id. cbn [dict_get].
    specialize (IH r0 eq_refl).
    destruct c; simpl in F; subst k; simpl; try exact IH; reflexivity.
Qed.

Lemma dict_get_has_key (ed : list (string * pyval)) (k : string) (v : pyval) :
  dict_get ed k = v -> v <> PNone -> existsb (fun kv => String.eqb (fst kv) k) ed = true.
Proof.
  induction ed as [| [k' v'] ed IH]; simpl; [congruence |].
  destruct (String.eqb k' k); simpl; [reflexivity | exact IH].
Qed.

(** C1 (as the code does it): when the table already holds a row with
    event_id [eid], a second [create_event] for a record with that
    event_id is rolled back and raises [AuditEventError] to its caller
    (for a record whose values are of the column types; a value
    [json.dumps] or the database refuses raises that error instead), and
    [handle_audit_persistence] for an event with that id returns
    [False]; in both cases the table is unchanged, so the rows with
    that event_id are exactly those stored before. *)
Theorem duplicate_event_id_rejected :
  (forall (db : table) (uuid : string) (now : Z) (ed : list (string * pyval))
          (eid : string) (r : AuditEvent),
     dict_get ed "event_id" = PStr eid ->
     AuditEvent_kwargs ed = Ret r ->
     row_fits r = true ->
     (count_event_id db eid >= 1)%nat ->
     create_event db uuid now ed = (db, Raise AuditEventError))
  /\ (forall (db : table) (now : Z) (ev : Event),
     (count_event_id db (ev_id ev) >= 1)%nat ->
     handle_audit_persistence db now ev = (db, Ret (PBool false))).
Proof.
  split.
  - intros db uuid now ed eid r Hid Hk Hf Hc. unfold create_event.
    rewrite (dict_get_has_key ed "event_id" (PStr eid) Hid ltac:(discriminate)).
    rewrite Hk. rewrite (insert_row_duplicate db now r eid); [reflexivity | | exact Hf | exact Hc].
    rewrite (kwargs_event_id ed r Hk). exact Hid.
  - intros db now ev Hc. unfold handle_audit_persistence.
    destruct (audit_row_of_event ev now) as [row |] eqn:E; [| reflexivity].
    assert (Hrow : ae_event_id row = PStr (ev_id ev)).
    { unfold audit_row_of_event in E. simpl in E.
      destruct (field_from _ _ "user_id"); try discriminate; simpl in E.
      destruct (field_from _ _ "user_email"); try discriminate; simpl in E.
      destruct (field_from _ _ "user_role"); try discriminate; simpl in E.
      destruct (field_from _ _ "resource_type"); try discriminate; simpl in E.
      destruct (field_from _ _ "resource_id"); try discriminate; simpl in E.
      destruct (field_from _ _ "description"); try discriminate; simpl in E.
      injection E as <-. reflexivity. }
    destruct (insert_row_duplicate_raises db now row (ev_id ev) Hrow Hc) as [e He].
    rewrite He. reflexivity.
Qed.

(** A share-issuance record, its payload converted to floats as the
    JSON column needs, stored in an empty table. *)
Definition share_record : list (string * pyval) :=
  [("event_id", PStr "E1"); ("event_type", PStr "share.issued");
   ("action", PStr "create"); ("event_data", convert_decimal_to_float share_payload)].

Definition db_one : table := fst (create_event [] "unused" 1000 share_record).

Lemma duplicate_event_id_rejected_witness :
  (count_event_id db_one "E1" >= 1)%nat
  /\ create_event db_one "u-2" 2000 share_record = (db_one, Raise AuditEventError).
Proof.
  split; [vm_compute; lia |].
  apply (proj1 duplicate_event_id_rejected db_one "u-2" 2000 share_record "E1"
           (match AuditEvent_kwargs share_record with Ret r => r | Raise _ => empty_row end));
    vm_compute; [reflexivity | reflexivity | reflexivity | lia].
Defined.

(** C1 as stated fails: the first [create_event] stores the record,
    the second one with the same event_id surfaces [AuditEventError]. *)
Lemma duplicate_insert_surfaces_error :
  (exists row, create_event [] "unused" 1000 share_record = ([row], Ret row))
  /\ snd (create_event db_one "u-2" 2000 share_record) = Raise AuditEventError
  /\ count_event_id (fst (create_event db_one "u-2" 2000 share_record)) "E1" = 1%nat.
Proof. split; [eexists; vm_compute; reflexivity | split; vm_compute; reflexivity]. Qed.

(* ------------------------------------------------------------------ *)
(** ** Acknowledgement by the consumer *)

(** Test bodies are written with ['] for the JSON double quote. *)
Definition dq (s : string) : string :=
  string_of_list_ascii
    (map (fun c => if Ascii.eqb c "'"%char then "034"%char else c) (list_ascii_of_string s)).

(** C2 (the code at the failing input): a body that is not JSON reaches
    the [except] of the callback and is negatively acknowledged with
    requeue, not acknowledged. *)
Theorem malformed_body_nacked :
  json_loads "invalid json" = Raise JSONDecodeError
  /\ callback default_consumer 123 "invalid json" = [BasicNack 123 true].
Proof. split; vm_compute; reflexivity. Qed.

(** The category handler the router picks for a top-level event_type. *)
Definition category_handler (self : EventConsumer) (event_type : pyval)
  : option (pyval -> pyval -> py bool) :=
  if in_event_type_values event_type then Some (audit_handler self)
  else if eq_str event_type "notification" then Some (notification_handler self)
  else if eq_str event_type "system" then Some (system_handler self)
  else None.

Lemma route_category (self : EventConsumer) (et p eid : pyval) :
  route self et p eid
  = match category_handler self et with Some h => h p eid | None => Ret true end.
Proof.
  unfold route, category_handler.
  destruct (in_event_type_values et); [reflexivity |].
  destruct (eq_str et "notification"); [reflexivity |].
  destruct (eq_str et "system"); reflexivity.
Qed.

Lemma callback_dict (self : EventConsumer) (tag : Z) (body : string) d :
  json_loads body = Ret (PDict d) ->
  callback self tag body
  = match route self (dict_get d "event_type") (dict_get_default d "payload" (PDict []))
            (dict_get d "event_id") with
    | Ret true => [BasicAck tag]
    | _ => [BasicNack tag true]
    end.
Proof.
  intros H. unfold callback. rewrite H. cbn [py_bind py_get py_get_default].
  destruct (route _ _ _ _) as [[|] |]; reflexivity.
Qed.

(** C6: a decoded message whose top-level event_type is neither a
    domain kind nor "notification" nor "system" is acknowledged, for any
    handlers. *)
Theorem unknown_event_type_acked :
  forall (self : EventConsumer) (tag : Z) (body : string) (d : list (string * pyval)),
    json_loads body = Ret (PDict d) ->
    routed (dict_get d "event_type") = false ->
    callback self tag body = [BasicAck tag].
Proof.
  intros self tag body d H Hr. rewrite (callback_dict self tag body d H), route_category.
  unfold category_handler. unfold routed in Hr.
  apply orb_false_elim in Hr as [Hr H3]. apply orb_false_elim in Hr as [H1 H2].
  rewrite H1, H2, H3. reflexivity.
Qed.

Definition unknown_body : string :=
  dq "{'event_id': 'evt-9', 'event_type': 'unknown_event', 'payload': {}}".

Lemma unknown_event_type_acked_witness :
  callback default_consumer 123 unknown_body = [BasicAck 123].
Proof.
  apply (unknown_event_type_acked default_consumer 123 unknown_body
           [("event_id", PStr "evt-9"); ("event_type", PStr "unknown_event");
            ("payload", PDict [])]); vm_compute; reflexivity.
Defined.

(** C7: for a decoded message routed to a category handler [h], the
    callback acknowledges exactly when [h(payload, event_id)] returns
    [True]; when it returns [False] or raises, the only channel call is
    one [basic_nack] with requeue. *)
Theorem routed_ack_iff_handler_true :
  forall (self : EventConsumer) (tag : Z) (body : string) (d : list (string * pyval))
         (h : pyval -> pyval -> py bool),
    json_loads body = Ret (PDict d) ->
    category_handler self (dict_get d "event_type") = Some h ->
    let payload := dict_get_default d "payload" (PDict []) in
    let event_id := dict_get d "event_id" in
    (callback self tag body = [BasicAck tag] <-> h payload event_id = Ret true)
    /\ (h payload event_id <> Ret true -> callback self tag body = [BasicNack tag true]).
Proof.
  intros self tag body d h H Hc payload event_id.
  rewrite (callback_dict self tag body d H), route_category, Hc.
  fold payload event_id.
  destruct (h payload event_id) as [[|] |]; split; try congruence;
    try (split; congruence); intros _; reflexivity.
Qed.

Definition login_body_handled : string :=
  dq "{'event_id': 'evt-1', 'event_type': 'user_login', 'payload': {'event_type': 'user_login', 'user_id': 'u1'}}".

Definition login_body_handled_dict : list (string * pyval) :=
  [("event_id", PStr "evt-1"); ("event_type", PStr "user_login");
   ("payload", PDict [("event_type", PStr "user_login"); ("user_id", PStr "u1")])].

Lemma routed_ack_iff_handler_true_witness :
  callback default_consumer 7 login_body_handled = [BasicAck 7]
  <-> AuditEventHandler.handle
        (PDict [("event_type", PStr "user_login"); ("user_id", PStr "u1")])
        (PStr "evt-1") = Ret true.
Proof.
  exact (proj1 (routed_ack_iff_handler_true default_consumer 7 login_body_handled
                  login_body_handled_dict AuditEventHandler.handle
                  ltac:(vm_compute; reflexivity) ltac:(vm_compute; reflexivity))).
Defined.

(** What of a message decides its routing and its audit dispatch: the
    top-level event_type and the keys of the payload dict. *)
Definition envelope (m : pyval) : option (pyval * list string) :=
  match m with
  | PDict d =>
      match dict_get_default d "payload" (PDict []) with
      | PDict p => Some (dict_get d "event_type", map fst p)
      | _ => None
      end
  | _ => None
  end.

Lemma dict_get_absent (p : list (string * pyval)) (k : string) :
  existsb (String.eqb k) (map fst p) = false -> dict_get p k = PNone.
Proof.
  induction p as [| [k' v] p IH]; simpl; [reflexivity |].
  rewrite String.eqb_sym. destruct (String.eqb k' k); simpl; [discriminate | exact IH].
Qed.

Lemma audit_handle_no_event_type (p : list (string * pyval)) (eid : pyval) :
  dict_get p "event_type" = PNone -> AuditEventHandler.handle (PDict p) eid = Ret false.
Proof.
  intros H. unfold AuditEventHandler.handle. cbn [py_get py_bind]. rewrite H. reflexivity.
Qed.

(** C5: for every message an [AuditEventPublisher] method builds, a
    body that decodes to a message with the same top-level event_type
    and the same payload keys is routed to the audit handler, which
    finds no ["event_type"] in the payload and returns [False]; the
    delivery is negatively acknowledged with requeue. *)
Theorem published_audit_message_nacked :
  forall (c : AuditPublishCall) (event_id timestamp : string) (tag : Z)
         (body : string) (m : pyval),
    json_loads body = Ret m ->
    envelope m = envelope (fst (audit_message event_id timestamp c)) ->
    (exists d p, m = PDict d
       /\ dict_get_default d "payload" (PDict []) = PDict p
       /\ in_event_type_values (dict_get d "event_type") = true
       /\ dict_get p "event_type" = PNone
       /\ AuditEventHandler.handle (PDict p) (dict_get d "event_id") = Ret false)
    /\ callback default_consumer tag body = [BasicNack tag true].
Proof.
  intros c event_id timestamp tag body m Hj Henv.
  destruct m as [| | | | | | | | d |]; try (destruct c; discriminate).
  simpl in Henv.
  destruct (dict_get_default d "payload" (PDict [])) as [| | | | | | | | p |] eqn:Ep;
    try (destruct c; discriminate).
  assert (Hk : in_event_type_values (dict_get d "event_type") = true
               /\ existsb (String.eqb "event_type") (map fst p) = false).
  { destruct c; simpl in Henv; injection Henv as Het Hkeys;
      rewrite Het, Hkeys; split; reflexivity. }
  destruct Hk as [Het Hkeys]. apply dict_get_absent in Hkeys.
  pose proof (audit_handle_no_event_type p (dict_get d "event_id") Hkeys) as Hh.
  split.
  - exists d, p. repeat split; assumption.
  - rewrite (callback_dict default_consumer tag body d Hj), Ep.
    unfold route. rewrite Het. simpl audit_handler. rewrite Hh. reflexivity.
Qed.

Definition published_login_body : string :=
  dq "{'event_id': 'evt-1', 'event_type': 'user_login', 'timestamp': '2026-10-14T09:00:00', 'payload': {'user_id': 'u1', 'user_email': 'a@corp.example', 'user_role': 'admin', 'ip_address': null, 'user_agent': null}}".

Definition published_login_call : AuditPublishCall :=
  PublishUserLogin (PStr "u1") (PStr "a@corp.example") (PStr "admin") PNone PNone.

Lemma published_audit_message_nacked_witness :
  callback default_consumer 5 published_login_body = [BasicNack 5 true].
Proof.
  exact (proj2 (published_audit_message_nacked published_login_call "evt-1"
                  "2026-10-14T09:00:00" 5 published_login_body
                  (fst (audit_message "evt-1" "2026-10-14T09:00:00" published_login_call))
                  ltac:(vm_compute; reflexivity) ltac:(vm_compute; reflexivity))).
Defined.

(* ------------------------------------------------------------------ *)
(** ** Transport failures of the publisher *)

(** A transport failure during one publish: a (re)connection is needed
    and the connection, the channel or a declaration fails, or
    [basic_publish] fails. *)
Definition transport_fails (self : BasePublisher) (b : Broker) : bool :=
  (needs_connect self
   && negb (accepts_connection b && opens_channel b && accepts_declarations b))
  || negb (accepts_publish b).

Lemma connect_fails (self : BasePublisher) (b : Broker) :
  negb (accepts_connection b && opens_channel b && accepts_declarations b) = true ->
  exists s e, connect self b = (s, Raise e).
Proof.
  unfold connect.
  destruct (accepts_connection b), (opens_channel b), (accepts_declarations b);
    simpl; try discriminate; intros _; eexists; eexists; reflexivity.
Qed.

(** C8: [_publish_message] returns a boolean for every message, routing
    key, publisher state and broker behaviour (it never raises), and
    returns [False] whenever a transport failure occurs; so does every
    [AuditEventPublisher.publish_*] call. *)
Theorem publish_never_raises_false_on_transport_failure :
  (forall (self : BasePublisher) (b : Broker) (message : pyval) (routing_key : string),
     exists ok : bool, snd (fst (_publish_message self b message routing_key)) = Ret ok)
  /\ (forall (self : BasePublisher) (b : Broker) (message : pyval) (routing_key : string),
     transport_fails self b = true ->
     snd (fst (_publish_message self b message routing_key)) = Ret false)
  /\ (forall (self : BasePublisher) (b : Broker) (event_id timestamp : string)
            (c : AuditPublishCall),
     transport_fails self b = true ->
     snd (fst (audit_publish self b event_id timestamp c)) = Ret false).
Proof.
  assert (Hfail : forall self b message routing_key,
             transport_fails self b = true ->
             snd (fst (_publish_message self b message routing_key)) = Ret false).
  { intros self b message routing_key H. unfold transport_fails in H.
    unfold _publish_message, publish_message_body.
    apply orb_true_iff in H as [H | H].
    - apply andb_true_iff in H as [Hn Hc]. rewrite Hn.
      destruct (connect_fails self b Hc) as [s [e ->]]. reflexivity.
    - destruct (needs_connect self);
        [destruct (connect self b) as [s1 [u | e]] | ];
        try reflexivity;
        destruct (channel _); try reflexivity; simpl;
        destruct (json_serializable message); try reflexivity; simpl;
        destruct (accepts_publish b); try discriminate; reflexivity. }
  split; [| split].
  - intros self b message routing_key. unfold _publish_message.
    destruct (publish_message_body self b message routing_key) as [[s [ok | e]] out].
    + exists ok. reflexivity.
    + exists false. reflexivity.
  - exact Hfail.
  - intros self b event_id timestamp c H. unfold audit_publish.
    destruct (audit_message event_id timestamp c) as [message routing_key].
    apply Hfail. exact H.
Qed.

(** The broker is unreachable. *)
Definition broker_down : Broker := {|
  accepts_connection := false; opens_channel := false;
  accepts_declarations := false; accepts_publish := false |}.

Lemma publish_never_raises_false_on_transport_failure_witness :
  snd (fst (audit_publish new_publisher broker_down "evt-1" "2026-10-14T09:00:00"
              published_login_call)) = Ret false.
Proof.
  apply (proj2 (proj2 publish_never_raises_false_on_transport_failure)).
  vm_compute. reflexivity.
Defined.

(* ------------------------------------------------------------------ *)
(** ** Synchronous dispatch of the event bus *)

(** The synchronous handlers registered for kind [t], in the order of
    the [subscribe] calls. *)
Definition sync_registered (subs : list Bus.subscription) (t : EventType)
  : list Bus.handler :=
  flat_map (fun s => let '(t', h, a) := s in
                     if negb a && EventType_eqb t' t then [h] else []) subs.

Lemma subscribe_all_handlers (subs : list Bus.subscription) :
  forall (b : Bus.EventBus) (t : EventType),
    Bus._handlers (Bus.subscribe_all b subs) t = (Bus._handlers b t ++ sync_registered subs t)%list.
Proof.
  induction subs as [| [[t' h] a] subs IH]; intros b t; simpl.
  - rewrite app_nil_r. reflexivity.
  - rewrite IH. unfold Bus.subscribe. destruct a; simpl.
    + reflexivity.
    + unfold Bus.append_at. destruct (EventType_eqb t' t); simpl.
      * rewrite <- app_assoc. reflexivity.
      * reflexivity.
Qed.

Lemma invoked_app (t1 t2 : list Bus.trace_entry) :
  Bus.invoked (t1 ++ t2) = (Bus.invoked t1 ++ Bus.invoked t2)%list.
Proof. unfold Bus.invoked. apply flat_map_app. Qed.

Lemma invoked_handle_sync_list run (ev : Event) (hs : list Bus.handler) :
  Bus.invoked (flat_map (Bus.run_sync_handler run ev) hs) = hs.
Proof.
  induction hs as [| h hs IH]; [reflexivity |].
  change (flat_map (Bus.run_sync_handler run ev) (h :: hs))
    with (Bus.run_sync_handler run ev h ++ flat_map (Bus.run_sync_handler run ev) hs)%list.
  rewrite invoked_app, IH. unfold Bus.run_sync_handler.
  destruct (run h ev) as [[] |]; try destruct b; reflexivity.
Qed.

Lemma logged_in_handle_sync run (ev : Event) (hs : list Bus.handler) (h : Bus.handler) e :
  In h hs -> run h ev = Raise e -> In (Bus.LogError h) (flat_map (Bus.run_sync_handler run ev) hs).
Proof.
  intros Hin Hr. apply in_flat_map. exists h. split; [exact Hin |].
  unfold Bus.run_sync_handler. rewrite Hr. right. left. reflexivity.
Qed.

(** C4: on a bus set up by a list of [subscribe] calls, [publish]
    calls every synchronous handler registered for the event's kind
    exactly once and in registration order, whatever the earlier
    handlers return or raise; a handler that raises gets its own error
    log line; [publish] itself returns a boolean and raises nothing. *)
Theorem publish_runs_sync_handlers_in_order :
  forall (run : Bus.handler -> Event -> py pyval) (subs : list Bus.subscription)
         (loop_running : bool) (ev : Event),
    let '(_, res, tr) := Bus.publish run (Bus.subscribe_all Bus.empty_bus subs) loop_running ev in
    (exists ok : bool, res = Ret ok)
    /\ Bus.invoked tr = sync_registered subs (ev_type ev)
    /\ (forall h e, In h (sync_registered subs (ev_type ev)) -> run h ev = Raise e ->
                    In (Bus.LogError h) tr).
Proof.
  intros run subs loop_running ev.
  assert (Hh : Bus._handle_sync run (Bus.subscribe_all Bus.empty_bus subs) ev
               = flat_map (Bus.run_sync_handler run ev) (sync_registered subs (ev_type ev))).
  { unfold Bus._handle_sync. rewrite subscribe_all_handlers. reflexivity. }
  unfold Bus.publish. rewrite Hh.
  destruct (Bus._async_handlers _ (ev_type ev)) as [| a l].
  - repeat split.
    + exists true. reflexivity.
    + rewrite invoked_app, invoked_handle_sync_list. simpl. apply app_nil_r.
    + intros h e Hin Hr. apply in_or_app. left. eapply logged_in_handle_sync; eauto.
  - destruct loop_running; repeat split.
    + exists true. reflexivity.
    + rewrite invoked_app, invoked_handle_sync_list. simpl. apply app_nil_r.
    + intros h e Hin Hr. apply in_or_app. left. eapply logged_in_handle_sync; eauto.
    + exists false. reflexivity.
    + apply invoked_handle_sync_list.
    + intros h e Hin Hr. eapply logged_in_handle_sync; eauto.
Qed.

(* ------------------------------------------------------------------ *)
(** ** Listing audit events *)

(** [x] is listed before [y] in newest-first order: [created_at] of [x]
    is not older than that of [y]. *)
Definition newest_first (x y : AuditEvent) : Prop :=
  sql_le (ae_created_at y) (ae_created_at x) = true.

Lemma sql_le_total (a b : pyval) : sql_le a b = false -> sql_le b a = true.
Proof.
  intro H. destruct a, b; cbn [sql_le] in *; try discriminate; try reflexivity;
    repeat match goal with
           | b : bool |- _ => destruct b
           end; cbn [implb] in *; try discriminate; try reflexivity;
    try (apply Z.leb_le; apply Z.leb_gt in H; lia).
  rewrite String.compare_antisym.
  destruct (String.compare s s0); cbn [CompOpp] in *; congruence.
Qed.



Section Sorting.
Variable before : AuditEvent -> AuditEvent -> bool.
Variable R : AuditEvent -> AuditEvent -> Prop.
Hypothesis before_true : forall x r, before x r = true -> R x r.
Hypothesis before_false : forall x r, before x r = false -> R r x.

Lemma insert_by_sorted (r : AuditEvent) (l : list AuditEvent) :
  Sorted R l -> Sorted R (insert_by before r l).
Proof.
  induction l as [| x l IH]; intro Hs; simpl.
  - repeat constructor.
  - apply Sorted_inv in Hs as [Hl Hx].
    destruct (before x r) eqn:E.
    + constructor; [apply IH; exact Hl |].
      destruct l as [| y l']; simpl.
      * constructor. apply before_true. exact E.
      * destruct (before y r); constructor.
        -- inversion Hx; assumption.
        -- apply before_true. exact E.
    + constructor; [constructor; assumption |].
      constructor. apply before_false. exact E.
Qed.

Lemma sort_by_sorted (l : list AuditEvent) : Sorted R (sort_by before l).
Proof.
  induction l as [| x l IH]; simpl; [constructor |].
  apply insert_by_sorted. exact IH.
Qed.
End Sorting.




Lemma created_at_desc_sorted (l : list AuditEvent) :
  Sorted newest_first (sort_by (order_before C_created_at true) l).
Proof.
  apply sort_by_sorted; unfold order_before, newest_first; simpl; intros x r H.
  - apply sql_le_total. destruct (sql_le (ae_created_at x) (ae_created_at r)); simpl in *; congruence.
  - destruct (sql_le (ae_created_at x) (ae_created_at r)); simpl in *; congruence.
Qed.





(** Three handlers for [user.login]: handler 1 raises, handler 2
    returns [False], handler 3 returns [True]; handler 4 listens to
    [user.logout]. *)
Definition sample_run (h : Bus.handler) (ev : Event) : py pyval :=
  match h with
  | 1%nat => Raise (HandlerError 1)
  | 2%nat => Ret (PBool false)
  | _ => Ret (PBool true)
  end.

Definition sample_subs : list Bus.subscription :=
  [(ET_USER_LOGIN, 1%nat, false); (ET_USER_LOGOUT, 4%nat, false);
   (ET_USER_LOGIN, 2%nat, false); (ET_USER_LOGIN, 3%nat, false)].

Definition sample_login : Event := {|
  ev_id := "e-7"; ev_type := ET_USER_LOGIN; ev_payload := [("user_id", PStr "u-1")];
  ev_metadata := []; ev_source := PNone |}.

Lemma publish_runs_sync_handlers_in_order_witness :
  let '(_, res, tr) := Bus.publish sample_run (Bus.subscribe_all Bus.empty_bus sample_subs)
                         false sample_login in
  res = Ret true /\ Bus.invoked tr = [1; 2; 3]%nat /\ In (Bus.LogError 1%nat) tr.
Proof.
  pose proof (publish_runs_sync_handlers_in_order sample_run sample_subs false sample_login) as H.
  revert H.
  destruct (Bus.publish sample_run (Bus.subscribe_all Bus.empty_bus sample_subs) false sample_login)
    as [[b res] tr] eqn:E.
  intros [[ok Hok] [Hinv Hlog]].
  split; [| split].
  - vm_compute in E. injection E as _ <- _. reflexivity.
  - rewrite Hinv. reflexivity.
  - apply (Hlog 1%nat (HandlerError 1)); [simpl; auto | reflexivity].
Defined.





(* ================================================================== *)
(** * Further properties of the consumer's handlers *)

(** The [shareholder_data] a shareholder-created payload carries, with
    the [{}] default: only a dict has the [get] the log line calls. *)
Definition shareholder_data_ok (d : list (string * pyval)) : bool :=
  match dict_get_default d "shareholder_data" (PDict []) with
  | PDict _ => true
  | _ => false
  end.

Lemma try_reads_then_true_dict (d : list (string * pyval)) (keys : list string) :
  try_reads_then_true (PDict d) keys = Ret true.
Proof.
  unfold try_reads_then_true.
  assert (H : forall (acc : py pyval), (exists v, acc = Ret v) ->
            exists v, fold_left (fun acc k => let* _ := acc in py_get (PDict d) k) keys acc = Ret v).
  { induction keys as [| k keys IH]; intros acc [v ->]; simpl.
    - exists v. reflexivity.
    - apply IH. exists (dict_get d k). reflexivity. }
  destruct (H (Ret PNone) (ex_intro _ PNone eq_refl)) as [v Hv]. rewrite Hv. reflexivity.
Qed.

Ltac str_cases s :=
  repeat match goal with
         | |- context [String.eqb s ?lit] =>
             let E := fresh "E" in
             destruct (String.eqb s lit) eqn:E;
             [apply String.eqb_eq in E; subst s | ]
         end.

(** [AuditEventHandler.handle] on a dict payload returns [True] exactly
    when the payload's own [event_type] is one of the nine
    [EventTypeEnum] values, except that a [shareholder_created] payload
    whose [shareholder_data] is present and not a dict gives [False];
    a payload that is not a dict makes it raise [AttributeError]. *)
Theorem audit_handle_result :
  (forall (d : list (string * pyval)) (event_id : pyval),
      AuditEventHandler.handle (PDict d) event_id
      = Ret (in_event_type_values (dict_get d "event_type")
             && (negb (eq_str (dict_get d "event_type") "shareholder_created")
                 || shareholder_data_ok d)))
  /\ (forall (payload event_id : pyval),
        match payload with
        | PDict _ => True
        | _ => AuditEventHandler.handle payload event_id = Raise AttributeError
        end).
Proof.
  split.
  - intros d event_id. unfold AuditEventHandler.handle. cbn [py_get py_bind].
    unfold in_event_type_values, shareholder_data_ok.
    destruct (dict_get d "event_type") as [| | | | | s | | | |]; try reflexivity.
    cbn [existsb EventTypeEnum_members eq_str EventTypeEnum_value].
    str_cases s; cbn;
      unfold AuditEventHandler.handle_user_login, AuditEventHandler.handle_user_logout,
        AuditEventHandler.handle_shareholder_updated, AuditEventHandler.handle_share_issued,
        AuditEventHandler.handle_certificate_generated,
        AuditEventHandler.handle_permission_changed, AuditEventHandler.handle_data_export,
        AuditEventHandler.handle_system_error;
      try rewrite try_reads_then_true_dict; try reflexivity.
    unfold AuditEventHandler.handle_shareholder_created. cbn.
    destruct (dict_get_default d "shareholder_data" (PDict [])); reflexivity.
  - intros [] event_id; exact I || reflexivity.
Qed.

(** [NotificationEventHandler.handle] on a dict payload returns [True]
    exactly when [notification_type] is [share_issuance],
    [certificate_generated] or [system_alert]; on any other payload it
    raises [AttributeError]. *)
Theorem notification_handle_result :
  (forall (d : list (string * pyval)) (event_id : pyval),
      NotificationEventHandler.handle (PDict d) event_id
      = Ret (existsb (eq_str (dict_get d "notification_type"))
               ["share_issuance"; "certificate_generated"; "system_alert"]))
  /\ (forall (payload event_id : pyval),
        match payload with
        | PDict _ => True
        | _ => NotificationEventHandler.handle payload event_id = Raise AttributeError
        end).
Proof.
  split.
  - intros d event_id. unfold NotificationEventHandler.handle. cbn [py_get py_bind].
    destruct (dict_get d "notification_type") as [| | | | | s | | | |]; try reflexivity.
    cbn [existsb eq_str].
    str_cases s; cbn;
      unfold NotificationEventHandler.handle_share_issuance_notification,
        NotificationEventHandler.handle_certificate_notification,
        NotificationEventHandler.handle_system_alert;
      try rewrite try_reads_then_true_dict; reflexivity.
  - intros [] event_id; exact I || reflexivity.
Qed.

(** [SystemEventHandler.handle] on a dict payload returns [True] exactly
    when [event] is [application_startup] or [database_backup]; on any
    other payload it raises [AttributeError]. *)
Theorem system_handle_result :
  (forall (d : list (string * pyval)) (event_id : pyval),
      SystemEventHandler.handle (PDict d) event_id
      = Ret (existsb (eq_str (dict_get d "event")) ["application_startup"; "database_backup"]))
  /\ (forall (payload event_id : pyval),
        match payload with
        | PDict _ => True
        | _ => SystemEventHandler.handle payload event_id = Raise AttributeError
        end).
Proof.
  split.
  - intros d event_id. unfold SystemEventHandler.handle. cbn [py_get py_bind].
    destruct (dict_get d "event") as [| | | | | s | | | |]; try reflexivity.
    cbn [existsb eq_str].
    str_cases s; cbn;
      unfold SystemEventHandler.handle_application_startup,
        SystemEventHandler.handle_database_backup;
      try rewrite try_reads_then_true_dict; reflexivity.
  - intros [] event_id; exact I || reflexivity.
Qed.

(** [EventConsumer.callback] nacks with requeue every body that does not
    decode to a JSON object (malformed JSON, invalid UTF-8, an array, a
    number, ...), and every object whose [event_type] is routed to a
    category handler but whose [payload] is not an object, such as
    [null]: the handler's [payload.get] raises outside its own [try]. *)
Theorem callback_nacks_non_objects :
  forall (tag : Z) (body : string),
    (match json_loads body with
     | Ret (PDict _) => True
     | _ => callback default_consumer tag body = [BasicNack tag true]
     end)
    /\ (forall d, json_loads body = Ret (PDict d) ->
        routed (dict_get d "event_type") = true ->
        match dict_get_default d "payload" (PDict []) with
        | PDict _ => True
        | _ => callback default_consumer tag body = [BasicNack tag true]
        end).
Proof.
  intros tag body. split.
  - unfold callback. destruct (json_loads body) as [[] |]; try exact I; reflexivity.
  - intros d Hj Hr. unfold callback. rewrite Hj. cbn [py_bind py_get py_get_default].
    unfold routed in Hr. unfold route. cbn [audit_handler notification_handler system_handler default_consumer].
    destruct (dict_get_default d "payload" (PDict [])) eqn:Ep; try exact I;
    destruct (in_event_type_values (dict_get d "event_type"));
    try (unfold AuditEventHandler.handle; reflexivity);
    destruct (eq_str (dict_get d "event_type") "notification");
    try (unfold NotificationEventHandler.handle; reflexivity);
    destruct (eq_str (dict_get d "event_type") "system"); try discriminate;
    unfold SystemEventHandler.handle; reflexivity.
Qed.

Definition null_payload_body : string :=
  dq "{'event_id': 'n-1', 'event_type': 'notification', 'payload': null}".

Lemma callback_nacks_non_objects_witness :
  (exists d, json_loads null_payload_body = Ret (PDict d)
             /\ routed (dict_get d "event_type") = true
             /\ dict_get_default d "payload" (PDict []) = PNone)
  /\ callback default_consumer 9 null_payload_body = [BasicNack 9 true].
Proof.
  split.
  - eexists. split; [vm_compute; reflexivity | split; vm_compute; reflexivity].
  - pose proof (proj2 (callback_nacks_non_objects 9 null_payload_body)) as H.
    specialize (H _ ltac:(vm_compute; reflexivity) ltac:(vm_compute; reflexivity)).
    exact H.
Defined.

(* ================================================================== *)
(** * The rest of the publishers (src/events/publisher.py) *)

(** Words of a routing key or binding pattern: the parts between dots. *)
Fixpoint split_dots (s : list ascii) (cur : list ascii) : list string :=
  match s with
  | [] => [string_of_list_ascii (rev cur)]
  | c :: r =>
      if Ascii.eqb c "."%char then string_of_list_ascii (rev cur) :: split_dots r []
      else split_dots r (c :: cur)
  end.

Definition words (s : string) : list string := split_dots (list_ascii_of_string s) [].

(** AMQP topic matching: [*] stands for exactly one word, [#] for zero
    or more words, any other word for itself. *)
Fixpoint topic_match (pat key : list string) : bool :=
  match pat with
  | [] => match key with [] => true | _ => false end
  | w :: p' =>
      if String.eqb w "#" then
        (fix skip (k : list string) : bool :=
           topic_match p' k || match k with [] => false | _ :: k' => skip k' end) key
      else
        match key with
        | [] => false
        | kw :: k' => (String.eqb w "*" || String.eqb w kw) && topic_match p' k'
        end
  end.

(** The bindings of [corporate_os_events] made by
    [_declare_queues_and_exchanges] (publisher.py:55-86): queue and
    binding key. *)
Definition bindings : list (string * string) :=
  [("events", "events.*"); ("audit_events", "audit.*"); ("notifications", "notification.*")].

(** The queues the topic exchange delivers a message with this routing
    key to. *)
Definition exchange_route (routing_key : string) : list string :=
  map fst (filter (fun b => topic_match (words (snd b)) (words routing_key)) bindings).

(** The calls of [NotificationEventPublisher] (publisher.py:337-395). *)
Inductive NotificationPublishCall : Type :=
| PublishShareIssuanceNotification (user_id shareholder_name share_count total_amount : pyval)
| PublishCertificateNotification (user_id certificate_path : pyval)
| PublishSystemAlert (user_id alert_type alert_message : pyval).

(** The calls of [SystemEventPublisher] (publisher.py:422-450). *)
Inductive SystemPublishCall : Type :=
| PublishApplicationStartup (version environment : pyval)
| PublishDatabaseBackup (backup_path backup_size : pyval).

Section Formatting.
(** [str(v)], which an f-string applies to each interpolated argument. *)
Variable py_str : pyval -> string.

Definition notification_wire (event_id timestamp : string) (payload : list (string * pyval))
  : pyval :=
  PDict [("event_id", PStr event_id); ("event_type", PStr "notification");
         ("timestamp", PStr timestamp); ("payload", PDict payload)].

(** The message and routing key each notification method builds. *)
Definition notification_message (event_id timestamp : string) (c : NotificationPublishCall)
  : pyval * string :=
  match c with
  | PublishShareIssuanceNotification u sn sc ta =>
      (notification_wire event_id timestamp
         [("user_id", u); ("notification_type", PStr "share_issuance");
          ("title", PStr "Nouvelle émission d'actions");
          ("message", PStr ("Une émission de " ++ py_str sc ++ " actions pour "
                            ++ py_str ta ++ "€ a été créée pour " ++ py_str sn));
          ("metadata", PDict [("shareholder_name", sn); ("share_count", sc);
                              ("total_amount", ta)])],
       "notification.share.issuance")
  | PublishCertificateNotification u cp =>
      (notification_wire event_id timestamp
         [("user_id", u); ("notification_type", PStr "certificate_generated");
          ("title", PStr "Certificat d'actions généré");
          ("message", PStr "Votre certificat d'actions a été généré avec succès");
          ("metadata", PDict [("certificate_path", cp)])],
       "notification.certificate.generated")
  | PublishSystemAlert u at_ am =>
      (notification_wire event_id timestamp
         [("user_id", u); ("notification_type", PStr "system_alert");
          ("title", PStr ("Alerte système - " ++ py_str at_));
          ("message", am);
          ("metadata", PDict [("alert_type", at_)])],
       "notification.system.alert")
  end.

Definition notification_publish (self : BasePublisher) (b : Broker)
  (event_id timestamp : string) (c : NotificationPublishCall)
  : BasePublisher * py bool * list sent :=
  let '(message, routing_key) := notification_message event_id timestamp c in
  _publish_message self b message routing_key.
End Formatting.

(** The message and routing key each system method builds. *)
Definition system_message (event_id timestamp : string) (c : SystemPublishCall)
  : pyval * string :=
  let wire payload :=
    PDict [("event_id", PStr event_id); ("event_type", PStr "system");
           ("timestamp", PStr timestamp); ("payload", PDict payload)] in
  match c with
  | PublishApplicationStartup v e =>
      (wire [("event", PStr "application_startup"); ("version", v); ("environment", e)],
       "system.application.startup")
  | PublishDatabaseBackup p sz =>
      (wire [("event", PStr "database_backup"); ("backup_path", p); ("backup_size", sz)],
       "system.database.backup")
  end.

Definition system_publish (self : BasePublisher) (b : Broker)
  (event_id timestamp : string) (c : SystemPublishCall)
  : BasePublisher * py bool * list sent :=
  let '(message, routing_key) := system_message event_id timestamp c in
  _publish_message self b message routing_key.

(** [kwargs[k]]: [KeyError] when the keyword was not passed. *)
Fixpoint kwarg (kwargs : list (string * pyval)) (k : string) : py pyval :=
  match kwargs with
  | [] => Raise KeyError
  | (k', v) :: rest => if String.eqb k' k then Ret v else kwarg rest k
  end.

Definition has_key (kwargs : list (string * pyval)) (k : string) : bool :=
  existsb (fun kv => String.eqb (fst kv) k) kwargs.

(** The publish_* call [AuditEventPublisher.publish] (publisher.py:285-331)
    makes for its keyword arguments: [None] for an unknown [event_type],
    else the call, or the [KeyError] of a missing [kwargs[...]]. *)
Definition audit_call_of_kwargs (kwargs : list (string * pyval))
  : option (py AuditPublishCall) :=
  let et := dict_get kwargs "event_type" in
  if eq_str et (EventTypeEnum_value USER_LOGIN) then Some (
    let* u := kwarg kwargs "user_id" in let* e := kwarg kwargs "user_email" in
    let* r := kwarg kwargs "user_role" in
    Ret (PublishUserLogin u e r (dict_get kwargs "ip_address") (dict_get kwargs "user_agent")))
  else if eq_str et (EventTypeEnum_value USER_LOGOUT) then Some (
    let* u := kwarg kwargs "user_id" in let* e := kwarg kwargs "user_email" in
    Ret (PublishUserLogout u e (dict_get kwargs "session_duration")))
  else if eq_str et (EventTypeEnum_value SHAREHOLDER_CREATED) then Some (
    let* u := kwarg kwargs "user_id" in let* sd := kwarg kwargs "shareholder_data" in
    Ret (PublishShareholderCreated u sd))
  else if eq_str et (EventTypeEnum_value SHAREHOLDER_UPDATED) then Some (
    let* u := kwarg kwargs "user_id" in let* sid := kwarg kwargs "shareholder_id" in
    let* p := kwarg kwargs "previous_data" in let* n := kwarg kwargs "new_data" in
    Ret (PublishShareholderUpdated u sid p n))
  else if eq_str et (EventTypeEnum_value SHARE_ISSUED) then Some (
    let* u := kwarg kwargs "user_id" in let* sid := kwarg kwargs "shareholder_id" in
    let* sd := kwarg kwargs "share_data" in
    Ret (PublishShareIssued u sid sd))
  else if eq_str et (EventTypeEnum_value CERTIFICATE_GENERATED) then Some (
    let* u := kwarg kwargs "user_id" in let* sid := kwarg kwargs "shareholder_id" in
    let* cp := kwarg kwargs "certificate_path" in
    Ret (PublishCertificateGenerated u sid cp))
  else if eq_str et (EventTypeEnum_value PERMISSION_CHANGED) then Some (
    let* a := kwarg kwargs "admin_user_id" in let* t := kwarg kwargs "target_user_id" in
    let* o := kwarg kwargs "old_role" in let* n := kwarg kwargs "new_role" in
    Ret (PublishPermissionChanged a t o n))
  else if eq_str et (EventTypeEnum_value DATA_EXPORT) then Some (
    let* u := kwarg kwargs "user_id" in let* et' := kwarg kwargs "export_type" in
    let* ef := kwarg kwargs "export_format" in let* rc := kwarg kwargs "record_count" in
    Ret (PublishDataExport u et' ef rc))
  else if eq_str et (EventTypeEnum_value SYSTEM_ERROR) then Some (
    let* t := kwarg kwargs "error_type" in let* m := kwarg kwargs "error_message" in
    Ret (PublishSystemError t m (dict_get kwargs "stack_trace")))
  else None.

(** [AuditEventPublisher.publish] on its keyword arguments: an unknown type logs and
    returns [False]; a [KeyError] propagates. *)
Definition AuditEventPublisher_publish (self : BasePublisher) (b : Broker)
  (event_id timestamp : string) (kwargs : list (string * pyval))
  : BasePublisher * py bool * list sent :=
  match audit_call_of_kwargs kwargs with
  | None => (self, Ret false, [])
  | Some (Raise e) => (self, Raise e, [])
  | Some (Ret c) => audit_publish self b event_id timestamp c
  end.

(** [NotificationEventPublisher.publish] (publisher.py:397-416). *)
Definition notification_call_of_kwargs (kwargs : list (string * pyval))
  : option (py NotificationPublishCall) :=
  let nt := dict_get kwargs "notification_type" in
  if eq_str nt "share_issuance" then Some (
    let* u := kwarg kwargs "user_id" in let* sn := kwarg kwargs "shareholder_name" in
    let* sc := kwarg kwargs "share_count" in let* ta := kwarg kwargs "total_amount" in
    Ret (PublishShareIssuanceNotification u sn sc ta))
  else if eq_str nt "certificate_generated" then Some (
    let* u := kwarg kwargs "user_id" in let* cp := kwarg kwargs "certificate_path" in
    Ret (PublishCertificateNotification u cp))
  else if eq_str nt "system_alert" then Some (
    let* u := kwarg kwargs "user_id" in let* at_ := kwarg kwargs "alert_type" in
    let* am := kwarg kwargs "alert_message" in
    Ret (PublishSystemAlert u at_ am))
  else None.

Definition NotificationEventPublisher_publish (py_str : pyval -> string)
  (self : BasePublisher) (b : Broker) (event_id timestamp : string)
  (kwargs : list (string * pyval)) : BasePublisher * py bool * list sent :=
  match notification_call_of_kwargs kwargs with
  | None => (self, Ret false, [])
  | Some (Raise e) => (self, Raise e, [])
  | Some (Ret c) => notification_publish py_str self b event_id timestamp c
  end.

(** [SystemEventPublisher.publish] (publisher.py:452-468). *)
Definition system_call_of_kwargs (kwargs : list (string * pyval))
  : option (py SystemPublishCall) :=
  let ev := dict_get kwargs "event" in
  if eq_str ev "application_startup" then Some (
    let* v := kwarg kwargs "version" in let* e := kwarg kwargs "environment" in
    Ret (PublishApplicationStartup v e))
  else if eq_str ev "database_backup" then Some (
    let* p := kwarg kwargs "backup_path" in let* sz := kwarg kwargs "backup_size" in
    Ret (PublishDatabaseBackup p sz))
  else None.

Definition SystemEventPublisher_publish (self : BasePublisher) (b : Broker)
  (event_id timestamp : string) (kwargs : list (string * pyval))
  : BasePublisher * py bool * list sent :=
  match system_call_of_kwargs kwargs with
  | None => (self, Ret false, [])
  | Some (Raise e) => (self, Raise e, [])
  | Some (Ret c) => system_publish self b event_id timestamp c
  end.

(** A call with explicit keywords and a dict unpacked after them: a key
    of the dict that repeats an explicit keyword raises [TypeError]
    before the callee runs. *)
Definition call_kwargs (explicit extra : list (string * pyval))
  : py (list (string * pyval)) :=
  if existsb (fun kv => has_key explicit (fst kv)) extra then Raise TypeError
  else Ret (explicit ++ extra)%list.

(** [publish_audit_event] (publisher.py:496-506), on the global audit
    publisher. *)
Definition publish_audit_event (self : BasePublisher) (b : Broker) (event_id timestamp : string)
  (user_id action resource_type resource_id : pyval) (details : list (string * pyval))
  : BasePublisher * py bool * list sent :=
  match call_kwargs [("event_type", action); ("user_id", user_id);
                     ("resource_type", resource_type); ("resource_id", resource_id)] details with
  | Raise e => (self, Raise e, [])
  | Ret kwargs => AuditEventPublisher_publish self b event_id timestamp kwargs
  end.

(** [publish_notification_event] (publisher.py:508-520), on the global
    notification publisher. *)
Definition publish_notification_event (py_str : pyval -> string) (self : BasePublisher)
  (b : Broker) (event_id timestamp : string)
  (user_id notification_type message : pyval) (metadata : list (string * pyval))
  : BasePublisher * py bool * list sent :=
  match call_kwargs [("notification_type", notification_type); ("user_id", user_id);
                     ("message", message)] metadata with
  | Raise e => (self, Raise e, [])
  | Ret kwargs => NotificationEventPublisher_publish py_str self b event_id timestamp kwargs
  end.

(** Every message the three publishers build carries a three-word
    routing key ([audit.user.login], [notification.system.alert],
    [system.database.backup], ...), while the exchange's bindings are
    [events.*], [audit.*] and [notification.*], whose [*] stands for
    exactly one word: the topic exchange routes none of these messages
    to any queue, though it does route a two-word key such as
    [audit.login]. *)
Theorem published_messages_reach_no_queue :
  (forall event_id timestamp (c : AuditPublishCall),
      exchange_route (snd (audit_message event_id timestamp c)) = [])
  /\ (forall py_str event_id timestamp (c : NotificationPublishCall),
        exchange_route (snd (notification_message py_str event_id timestamp c)) = [])
  /\ (forall event_id timestamp (c : SystemPublishCall),
        exchange_route (snd (system_message event_id timestamp c)) = [])
  /\ exchange_route "audit.login" = ["audit_events"]
  /\ exchange_route "notification.alert" = ["notifications"].
Proof.
  split; [| split; [| split; [| split]]];
    try (intros; match goal with c : _ |- _ => destruct c end);
    vm_compute; reflexivity.
Qed.

(** Were a notification or a system message delivered, the consumer
    would acknowledge it: its [event_type] routes it to the matching
    handler and its [notification_type] or [event] is one that handler
    knows.  (The audit messages are nacked instead, see C5.) *)
Theorem consumer_acks_notification_and_system_messages :
  (forall py_str event_id timestamp (c : NotificationPublishCall) (tag : Z) (body : string),
      json_loads body = Ret (fst (notification_message py_str event_id timestamp c)) ->
      callback default_consumer tag body = [BasicAck tag])
  /\ (forall event_id timestamp (c : SystemPublishCall) (tag : Z) (body : string),
        json_loads body = Ret (fst (system_message event_id timestamp c)) ->
        callback default_consumer tag body = [BasicAck tag]).
Proof.
  split; intros until body; intro H; unfold callback; rewrite H; destruct c; reflexivity.
Qed.

Definition startup_body : string :=
  dq "{'event_id': 'e-1', 'event_type': 'system', 'timestamp': '2026-10-14T09:00:00', 'payload': {'event': 'application_startup', 'version': '1.4.0', 'environment': 'prod'}}".

Lemma consumer_acks_notification_and_system_messages_witness :
  json_loads startup_body
  = Ret (fst (system_message "e-1" "2026-10-14T09:00:00"
                (PublishApplicationStartup (PStr "1.4.0") (PStr "prod"))))
  /\ callback default_consumer 3 startup_body = [BasicAck 3].
Proof.
  split; [vm_compute; reflexivity |].
  apply (proj2 consumer_acks_notification_and_system_messages
           "e-1" "2026-10-14T09:00:00" (PublishApplicationStartup (PStr "1.4.0") (PStr "prod"))).
  vm_compute. reflexivity.
Defined.

Lemma kwarg_eq (kwargs : list (string * pyval)) (k : string) :
  kwarg kwargs k = if has_key kwargs k then Ret (dict_get kwargs k) else Raise KeyError.
Proof.
  unfold has_key. induction kwargs as [| [k' v] rest IH]; simpl; [reflexivity |].
  destruct (String.eqb k' k); simpl; [reflexivity | exact IH].
Qed.

Lemma publish_message_never_raises (self : BasePublisher) (b : Broker) (m : pyval) (rk : string) :
  exists r, snd (fst (_publish_message self b m rk)) = Ret r.
Proof.
  unfold _publish_message.
  destruct (publish_message_body self b m rk) as [[s1 [r | e]] out]; eexists; reflexivity.
Qed.

(** The keywords [AuditEventPublisher.publish] reads with [kwargs[...]]
    for each event type. *)
Definition audit_required_keys (t : EventTypeEnum) : list string :=
  match t with
  | USER_LOGIN => ["user_id"; "user_email"; "user_role"]
  | USER_LOGOUT => ["user_id"; "user_email"]
  | SHAREHOLDER_CREATED => ["user_id"; "shareholder_data"]
  | SHAREHOLDER_UPDATED => ["user_id"; "shareholder_id"; "previous_data"; "new_data"]
  | SHARE_ISSUED => ["user_id"; "shareholder_id"; "share_data"]
  | CERTIFICATE_GENERATED => ["user_id"; "shareholder_id"; "certificate_path"]
  | PERMISSION_CHANGED => ["admin_user_id"; "target_user_id"; "old_role"; "new_role"]
  | DATA_EXPORT => ["user_id"; "export_type"; "export_format"; "record_count"]
  | SYSTEM_ERROR => ["error_type"; "error_message"]
  end.

(** A known event type is given and one of its required keywords is not. *)
Definition audit_kwargs_missing (kwargs : list (string * pyval)) : bool :=
  existsb (fun t => eq_str (dict_get kwargs "event_type") (EventTypeEnum_value t)
                    && negb (forallb (has_key kwargs) (audit_required_keys t)))
    EventTypeEnum_members.

Ltac has_key_cases :=
  repeat match goal with
         | |- context [has_key ?kw ?k] => destruct (has_key kw k)
         end.

Lemma audit_call_of_kwargs_spec (kwargs : list (string * pyval)) :
  match audit_call_of_kwargs kwargs with
  | None => in_event_type_values (dict_get kwargs "event_type") = false
  | Some (Raise e) => e = KeyError /\ audit_kwargs_missing kwargs = true
  | Some (Ret _) => audit_kwargs_missing kwargs = false
  end.
Proof.
  unfold audit_call_of_kwargs, audit_kwargs_missing, in_event_type_values.
  destruct (dict_get kwargs "event_type") as [| | | | | s | | | |]; try reflexivity.
  cbn [existsb EventTypeEnum_members eq_str EventTypeEnum_value].
  str_cases s; cbn; rewrite ?kwarg_eq; has_key_cases; cbn; auto.
Qed.

(** [AuditEventPublisher.publish] with an event type that is not one of
    the nine values returns [False] without connecting or sending; with
    a known type it raises [KeyError] exactly when one of the keywords
    it reads with [kwargs[...]] is missing, and raises nothing else (the
    broker's failures become [False] inside [_publish_message]). *)
Theorem audit_publisher_dispatch :
  forall (self : BasePublisher) (b : Broker) (event_id timestamp : string)
         (kwargs : list (string * pyval)),
    (in_event_type_values (dict_get kwargs "event_type") = false ->
     AuditEventPublisher_publish self b event_id timestamp kwargs = (self, Ret false, []))
    /\ (forall e, snd (fst (AuditEventPublisher_publish self b event_id timestamp kwargs)) = Raise e
                  <-> e = KeyError /\ audit_kwargs_missing kwargs = true).
Proof.
  intros self b event_id timestamp kwargs.
  pose proof (audit_call_of_kwargs_spec kwargs) as Hs.
  unfold AuditEventPublisher_publish.
  destruct (audit_call_of_kwargs kwargs) as [[c | e] |] eqn:Ec.
  - split.
    + intro Hn. exfalso.
      unfold audit_kwargs_missing in Hs. unfold in_event_type_values in Hn.
      revert Hs Hn. unfold audit_call_of_kwargs in Ec.
      destruct (dict_get kwargs "event_type") as [| | | | | s | | | |]; try discriminate.
      cbn [existsb EventTypeEnum_members eq_str EventTypeEnum_value] in *.
      str_cases s; cbn in *; discriminate.
    + intro e. unfold audit_publish. destruct (audit_message event_id timestamp c) as [m rk].
      destruct (publish_message_never_raises self b m rk) as [r Hr]. rewrite Hr.
      split; [discriminate | intros [_ H]; congruence].
  - destruct Hs as [-> Hm]. split.
    + intro Hn. exfalso. unfold audit_kwargs_missing in Hm. unfold in_event_type_values in Hn.
      apply existsb_exists in Hm as [t [_ Ht]]. apply andb_true_iff in Ht as [Ht _].
      assert (existsb (fun t => eq_str (dict_get kwargs "event_type") (EventTypeEnum_value t))
                EventTypeEnum_members = true) as Hc.
      { apply existsb_exists. exists t. split; [destruct t; simpl; tauto | exact Ht]. }
      congruence.
    + intro e'. simpl. split.
      * intro H. injection H as <-. auto.
      * intros [-> _]. reflexivity.
  - split; [reflexivity |].
    intro e. simpl. split; [discriminate |].
    intros [_ Hm]. exfalso. unfold audit_kwargs_missing in Hm.
    apply existsb_exists in Hm as [t [_ Ht]]. apply andb_true_iff in Ht as [Ht _].
    assert (existsb (fun t => eq_str (dict_get kwargs "event_type") (EventTypeEnum_value t))
              EventTypeEnum_members = true) as Hc.
    { apply existsb_exists. exists t. split; [destruct t; simpl; tauto | exact Ht]. }
    unfold in_event_type_values in Hs. congruence.
Qed.

Lemma audit_publisher_dispatch_witness :
  AuditEventPublisher_publish new_publisher broker_down "e-1" "t"
    [("event_type", PStr "create"); ("user_id", PStr "u1")] = (new_publisher, Ret false, [])
  /\ snd (fst (AuditEventPublisher_publish new_publisher broker_down "e-1" "t"
                 [("event_type", PStr "user_login"); ("user_id", PStr "u1")]))
     = Raise KeyError.
Proof.
  split.
  - apply (proj1 (audit_publisher_dispatch new_publisher broker_down "e-1" "t" _)).
    vm_compute. reflexivity.
  - apply (proj2 (audit_publisher_dispatch new_publisher broker_down "e-1" "t" _)).
    split; [reflexivity | vm_compute; reflexivity].
Defined.

(** The keywords [publish_audit_event] passes explicitly. *)
Definition audit_event_explicit_keys : list string :=
  ["event_type"; "user_id"; "resource_type"; "resource_id"].

Definition repeats_key (keys : list string) (extra : list (string * pyval)) : bool :=
  existsb (fun kv => existsb (String.eqb (fst kv)) keys) extra.

Lemma has_key_explicit4 (k : string) (a b c d : pyval) (k1 k2 k3 k4 : string) :
  has_key [(k1, a); (k2, b); (k3, c); (k4, d)] k = existsb (String.eqb k) [k1; k2; k3; k4].
Proof.
  unfold has_key. simpl.
  rewrite (String.eqb_sym k1 k), (String.eqb_sym k2 k), (String.eqb_sym k3 k),
    (String.eqb_sym k4 k). reflexivity.
Qed.

(** [publish_audit_event] passes its [action] as the event type: an
    action that is not one of the nine event-type values (such as
    [create] or [update]) is never published, the call returns [False]
    and sends nothing; a [details] dict that repeats one of the explicit
    keywords makes the call raise [TypeError] before anything runs. *)
Theorem publish_audit_event_action_as_type :
  forall (self : BasePublisher) (b : Broker) (event_id timestamp : string)
         (user_id action resource_type resource_id : pyval) (details : list (string * pyval)),
    (repeats_key audit_event_explicit_keys details = true ->
     publish_audit_event self b event_id timestamp user_id action resource_type resource_id details
     = (self, Raise TypeError, []))
    /\ (repeats_key audit_event_explicit_keys details = false ->
        in_event_type_values action = false ->
        publish_audit_event self b event_id timestamp user_id action resource_type resource_id
          details = (self, Ret false, [])).
Proof.
  intros self b event_id timestamp user_id action resource_type resource_id details.
  unfold publish_audit_event, call_kwargs.
  assert (Hk : existsb (fun kv => has_key [("event_type", action); ("user_id", user_id);
                                           ("resource_type", resource_type);
                                           ("resource_id", resource_id)] (fst kv)) details
               = repeats_key audit_event_explicit_keys details).
  { unfold repeats_key, audit_event_explicit_keys.
    induction details as [| kv rest IH]; [reflexivity |].
    cbn [existsb]. rewrite IH, has_key_explicit4. cbn [existsb]. reflexivity. }
  rewrite Hk. split.
  - intros ->. reflexivity.
  - intros -> Hn. unfold AuditEventPublisher_publish, audit_call_of_kwargs.
    assert (He : dict_get ([("event_type", action); ("user_id", user_id);
                            ("resource_type", resource_type); ("resource_id", resource_id)]
                           ++ details)%list "event_type" = action) by reflexivity.
    rewrite He.
    assert (Hall : forall t, eq_str action (EventTypeEnum_value t) = false).
    { intro t. apply Bool.not_true_iff_false. intro E.
      apply Bool.not_true_iff_false in Hn. apply Hn. apply existsb_exists.
      exists t. split; [destruct t; simpl; tauto | exact E]. }
    rewrite !Hall. reflexivity.
Qed.

Lemma publish_audit_event_action_as_type_witness :
  publish_audit_event new_publisher broker_down "e-1" "t" (PStr "u1") (PStr "create")
    (PStr "shareholder") (PStr "S1") [("ip_address", PStr "10.0.0.1")]
  = (new_publisher, Ret false, [])
  /\ publish_audit_event new_publisher broker_down "e-1" "t" (PStr "u1") (PStr "user_login")
       (PStr "session") (PStr "S1") [("user_id", PStr "u2")]
     = (new_publisher, Raise TypeError, []).
Proof.
  split.
  - apply (proj2 (publish_audit_event_action_as_type new_publisher broker_down "e-1" "t"
                    (PStr "u1") (PStr "create") (PStr "shareholder") (PStr "S1")
                    [("ip_address", PStr "10.0.0.1")]));
      vm_compute; reflexivity.
  - apply (proj1 (publish_audit_event_action_as_type new_publisher broker_down "e-1" "t"
                    (PStr "u1") (PStr "user_login") (PStr "session") (PStr "S1")
                    [("user_id", PStr "u2")])).
    vm_compute. reflexivity.
Defined.

Lemma existsb_ext' {A} (f g : A -> bool) (l : list A) :
  (forall x, f x = g x) -> existsb f l = existsb g l.
Proof. intro H. induction l as [| x l IH]; simpl; [reflexivity | rewrite H, IH; reflexivity]. Qed.

Lemma notification_explicit_repeats (nt uid m : pyval) (md : list (string * pyval)) :
  existsb (fun kv => has_key [("notification_type", nt); ("user_id", uid); ("message", m)] (fst kv))
    md = repeats_key ["notification_type"; "user_id"; "message"] md.
Proof.
  unfold repeats_key, has_key. apply existsb_ext'. intros [k v]. cbn [existsb fst].
  rewrite (String.eqb_sym "notification_type" k), (String.eqb_sym "user_id" k),
    (String.eqb_sym "message" k).
  reflexivity.
Qed.

(** [publish_notification_event] never uses its [message] argument: the
    outcome (publisher state, result and messages sent) is the same for
    any two messages.  For a [system_alert], the text sent is the
    [alert_message] of [metadata], and a [metadata] without one makes
    the call raise [KeyError]. *)
Theorem publish_notification_event_ignores_message :
  forall py_str (self : BasePublisher) (b : Broker) (event_id timestamp : string)
         (user_id notification_type : pyval) (metadata : list (string * pyval)),
    (forall m1 m2,
        publish_notification_event py_str self b event_id timestamp user_id notification_type
          m1 metadata
        = publish_notification_event py_str self b event_id timestamp user_id notification_type
            m2 metadata)
    /\ (forall m, notification_type = PStr "system_alert" ->
        repeats_key ["notification_type"; "user_id"; "message"] metadata = false ->
        has_key metadata "alert_message" = false ->
        publish_notification_event py_str self b event_id timestamp user_id notification_type
          m metadata = (self, Raise KeyError, [])).
Proof.
  intros py_str self b event_id timestamp user_id notification_type metadata. split.
  - intros m1 m2. unfold publish_notification_event, call_kwargs.
    rewrite !notification_explicit_repeats.
    destruct (repeats_key ["notification_type"; "user_id"; "message"] metadata); [reflexivity |].
    unfold NotificationEventPublisher_publish, notification_call_of_kwargs.
    cbn. reflexivity.
  - intros m -> Hr Ha. unfold publish_notification_event, call_kwargs.
    rewrite notification_explicit_repeats, Hr.
    unfold NotificationEventPublisher_publish, notification_call_of_kwargs.
    cbn. rewrite (kwarg_eq metadata "alert_type").
    destruct (has_key metadata "alert_type"); cbn;
      rewrite ?(kwarg_eq metadata "alert_message"), ?Ha; reflexivity.
Qed.

Lemma publish_notification_event_ignores_message_witness :
  publish_notification_event (fun _ => EmptyString) new_publisher broker_down "e-1" "t"
    (PStr "u1") (PStr "system_alert") (PStr "disk full") [("alert_type", PStr "disk")]
  = (new_publisher, Raise KeyError, []).
Proof.
  apply (proj2 (publish_notification_event_ignores_message (fun _ => EmptyString)
                  new_publisher broker_down "e-1" "t" (PStr "u1") (PStr "system_alert")
                  [("alert_type", PStr "disk")]) (PStr "disk full")); reflexivity.
Defined.

(* ------------------------------------------------------------------ *)
(** ** [EventBus.unsubscribe] and the outcome of [EventBus.publish] *)

(** [list.remove(x)]: drop the first element equal to [x] (the caller
    has checked [x in list]). *)
Fixpoint list_remove (h : Bus.handler) (l : list Bus.handler) : list Bus.handler :=
  match l with
  | [] => []
  | x :: l' => if Nat.eqb x h then l' else x :: list_remove h l'
  end.

Definition remove_at (reg : EventType -> list Bus.handler) (t : EventType) (h : Bus.handler)
  : EventType -> list Bus.handler :=
  fun t' => if EventType_eqb t t' then
              (if existsb (Nat.eqb h) (reg t') then list_remove h (reg t') else reg t')
            else reg t'.

(** [EventBus.unsubscribe] (event_bus.py:46-63). *)
Definition unsubscribe (self : Bus.EventBus) (t : EventType) (h : Bus.handler)
  (async_handler : bool) : Bus.EventBus :=
  if async_handler then
    {| Bus._handlers := Bus._handlers self;
       Bus._async_handlers := remove_at (Bus._async_handlers self) t h;
       Bus._event_queue := Bus._event_queue self |}
  else
    {| Bus._handlers := remove_at (Bus._handlers self) t h;
       Bus._async_handlers := Bus._async_handlers self;
       Bus._event_queue := Bus._event_queue self |}.

(** The registry [subscribe] and [unsubscribe] work on. *)
Definition registry (self : Bus.EventBus) (async_handler : bool) : EventType -> list Bus.handler :=
  if async_handler then Bus._async_handlers self else Bus._handlers self.

(** The bus with the keys of its two [defaultdict(list)] registries, in
    insertion order: reading [registry[t]] inserts a missing [t] with an
    empty list, which [get_stats] then reports; [.get(t, [])] inserts
    nothing. *)
Record BusState : Type := {
  bs_bus : Bus.EventBus;
  bs_sync_keys : list EventType;
  bs_async_keys : list EventType
}.

Definition empty_state : BusState :=
  {| bs_bus := Bus.empty_bus; bs_sync_keys := []; bs_async_keys := [] |}.

Definition touch (ks : list EventType) (t : EventType) : list EventType :=
  if existsb (EventType_eqb t) ks then ks else (ks ++ [t])%list.

Definition keys (st : BusState) (async_handler : bool) : list EventType :=
  if async_handler then bs_async_keys st else bs_sync_keys st.

(** The new bus, after [registry[t]] was read in the registry named by
    [async_handler]. *)
Definition touch_keys (st : BusState) (bus : Bus.EventBus) (async_handler : bool)
  (t : EventType) : BusState :=
  {| bs_bus := bus;
     bs_sync_keys := if async_handler then bs_sync_keys st else touch (bs_sync_keys st) t;
     bs_async_keys := if async_handler then touch (bs_async_keys st) t else bs_async_keys st |}.

(** [subscribe] appends to [registry[event_type]]. *)
Definition subscribe_st (st : BusState) (t : EventType) (h : Bus.handler)
  (async_handler : bool) : BusState :=
  touch_keys st (Bus.subscribe (bs_bus st) t h async_handler) async_handler t.

(** [unsubscribe] reads [registry[event_type]] for its [in] test. *)
Definition unsubscribe_st (st : BusState) (t : EventType) (h : Bus.handler)
  (async_handler : bool) : BusState :=
  touch_keys st (unsubscribe (bs_bus st) t h async_handler) async_handler t.

(** [publish]: [_handle_sync] reads [_handlers.get(event.type, [])]; the
    test [if self._async_handlers[event.type]] inserts the key. *)
Definition publish_st (run : Bus.handler -> Event -> py pyval) (st : BusState)
  (loop_running : bool) (ev : Event) : BusState * py bool * list Bus.trace_entry :=
  let '(bus', res, tr) := Bus.publish run (bs_bus st) loop_running ev in
  (touch_keys st bus' true (ev_type ev), res, tr).

(** The ["sync_handlers"] (or ["async_handlers"]) dict of [get_stats]
    (event_bus.py:174-181): [{k.value: len(v) for k, v in d.items()}]. *)
Definition handler_counts (st : BusState) (async_handler : bool) : list (string * nat) :=
  map (fun k => (EventType_value k, List.length (registry (bs_bus st) async_handler k)))
    (keys st async_handler).

Lemma EventType_eqb_spec (a b : EventType) : EventType_eqb a b = true <-> a = b.
Proof.
  split; [| intros ->; apply String.eqb_refl].
  destruct a, b; unfold EventType_eqb; cbn; intro H; try discriminate; reflexivity.
Qed.

Lemma list_remove_not_in (h : Bus.handler) (l : list Bus.handler) :
  existsb (Nat.eqb h) l = false -> list_remove h l = l.
Proof.
  induction l as [| x l IH]; cbn; [reflexivity |].
  intro H. apply orb_false_iff in H as [H1 H2].
  rewrite Nat.eqb_sym, H1, IH by exact H2. reflexivity.
Qed.

Lemma list_remove_app_fresh (h : Bus.handler) (l : list Bus.handler) :
  existsb (Nat.eqb h) l = false -> list_remove h (l ++ [h])%list = l.
Proof.
  induction l as [| x l IH]; cbn.
  - rewrite Nat.eqb_refl. reflexivity.
  - intro H. apply orb_false_iff in H as [H1 H2].
    rewrite Nat.eqb_sym, H1, IH by exact H2. reflexivity.
Qed.

Lemma list_remove_count (h : Bus.handler) (l : list Bus.handler) :
  (count_occ Nat.eq_dec (list_remove h l) h = count_occ Nat.eq_dec l h - 1)%nat.
Proof.
  induction l as [| x l IH]; cbn; [reflexivity |].
  destruct (Nat.eqb x h) eqn:E.
  - apply Nat.eqb_eq in E. subst x. destruct (Nat.eq_dec h h); [lia | congruence].
  - apply Nat.eqb_neq in E. cbn. destruct (Nat.eq_dec x h); [congruence |]. exact IH.
Qed.

Lemma EventType_eqb_refl (t : EventType) : EventType_eqb t t = true.
Proof. apply EventType_eqb_spec. reflexivity. Qed.

Lemma touch_touch (ks : list EventType) (t : EventType) : touch (touch ks t) t = touch ks t.
Proof.
  unfold touch. destruct (existsb (EventType_eqb t) ks) eqn:E; [rewrite E; reflexivity |].
  rewrite existsb_app. cbn. rewrite EventType_eqb_refl, orb_true_r. reflexivity.
Qed.

Lemma touch_present (ks : list EventType) (t : EventType) :
  existsb (EventType_eqb t) ks = true -> touch ks t = ks.
Proof. unfold touch. intros ->. reflexivity. Qed.

Lemma handler_counts_ext (st st' : BusState) (b : bool) :
  (forall t', registry (bs_bus st) b t' = registry (bs_bus st') b t') ->
  keys st b = keys st' b -> handler_counts st b = handler_counts st' b.
Proof.
  intros Hr Hk. unfold handler_counts. rewrite Hk. apply map_ext. intro k. rewrite Hr. reflexivity.
Qed.

(** [unsubscribe] undoes a [subscribe] of a handler that was not yet
    registered for that type (in that registry): both registries and the
    queue are back to what they were, but the type stays a key of the
    registry, so [get_stats] lists it (with its count, 0 if it had no
    handler); only when it was a key already is the bus as it was.
    Unsubscribing a handler that is not registered leaves the registries
    and the queue unchanged, and also makes the type a key. *)
Theorem unsubscribe_after_subscribe :
  forall (st : BusState) (t : EventType) (h : Bus.handler) (a : bool),
    existsb (Nat.eqb h) (registry (bs_bus st) a t) = false ->
    let st1 := unsubscribe_st (subscribe_st st t h a) t h a in
    let st2 := unsubscribe_st st t h a in
    let touched := touch_keys st (bs_bus st) a t in
    (forall b t', registry (bs_bus st1) b t' = registry (bs_bus st) b t')
    /\ Bus._event_queue (bs_bus st1) = Bus._event_queue (bs_bus st)
    /\ (forall b, keys st1 b = keys touched b)
    /\ (forall b, handler_counts st1 b = handler_counts touched b)
    /\ (existsb (EventType_eqb t) (keys st a) = true -> forall b, keys st1 b = keys st b)
    /\ (forall b t', registry (bs_bus st2) b t' = registry (bs_bus st) b t')
    /\ Bus._event_queue (bs_bus st2) = Bus._event_queue (bs_bus st)
    /\ (forall b, keys st2 b = keys touched b).
Proof.
  intros st t h a Hfresh st1 st2 touched.
  assert (Hr1 : forall b t', registry (bs_bus st1) b t' = registry (bs_bus st) b t').
  { intros b t'. subst st1. unfold unsubscribe_st, subscribe_st, touch_keys. cbn [bs_bus].
    destruct a, b; cbn; try reflexivity;
      unfold remove_at, Bus.append_at; cbn in Hfresh;
      destruct (EventType_eqb t t') eqn:E; try reflexivity;
      apply EventType_eqb_spec in E; subst t';
      rewrite existsb_app; cbn; rewrite Nat.eqb_refl, orb_true_r;
      apply list_remove_app_fresh; exact Hfresh. }
  assert (Hk1 : forall b, keys st1 b = keys touched b).
  { intro b. subst st1 touched. unfold unsubscribe_st, subscribe_st, touch_keys, keys.
    destruct a, b; cbn; try reflexivity; apply touch_touch. }
  split; [exact Hr1 | split; [| split; [exact Hk1 | split; [| split; [| split; [| split]]]]]].
  - subst st1. destruct a; reflexivity.
  - intro b. apply handler_counts_ext; [| apply Hk1].
    intro t'. rewrite Hr1. subst touched. destruct b; reflexivity.
  - intros Hin b. rewrite Hk1. subst touched. unfold touch_keys, keys in *.
    destruct a, b; cbn; try reflexivity; apply touch_present; exact Hin.
  - intros b t'. subst st2. unfold unsubscribe_st, touch_keys. cbn [bs_bus].
    destruct a, b; cbn; try reflexivity;
      unfold remove_at; cbn in Hfresh;
      destruct (EventType_eqb t t') eqn:E; try reflexivity;
      apply EventType_eqb_spec in E; subst t'; rewrite Hfresh; reflexivity.
  - subst st2. destruct a; reflexivity.
  - intro b. subst st2 touched. unfold unsubscribe_st, touch_keys, keys.
    destruct a, b; reflexivity.
Qed.

Lemma unsubscribe_after_subscribe_witness :
  existsb (Nat.eqb 7%nat) (registry (bs_bus empty_state) false ET_USER_LOGIN) = false
  /\ (forall t', registry (bs_bus (unsubscribe_st (subscribe_st empty_state ET_USER_LOGIN 7%nat false)
                                   ET_USER_LOGIN 7%nat false)) false t' = [])
  /\ handler_counts (unsubscribe_st (subscribe_st empty_state ET_USER_LOGIN 7%nat false)
                                   ET_USER_LOGIN 7%nat false) false
     = [("user.login", 0%nat)].
Proof.
  destruct (unsubscribe_after_subscribe empty_state ET_USER_LOGIN 7%nat false eq_refl)
    as [Hr [_ [_ [Hc _]]]].
  split; [reflexivity | split].
  - intro t'. rewrite (Hr false t'). reflexivity.
  - rewrite (Hc false). vm_compute. reflexivity.
Defined.

(** [unsubscribe] removes one registration only: a handler subscribed
    [n] times for a type is left [n - 1] times in that list, and every
    other list of both registries is unchanged. *)
Theorem unsubscribe_removes_one_registration :
  forall (self : Bus.EventBus) (t : EventType) (h : Bus.handler) (a : bool),
    (count_occ Nat.eq_dec (registry (unsubscribe self t h a) a t) h
     = count_occ Nat.eq_dec (registry self a t) h - 1)%nat
    /\ (forall t', t' <> t -> registry (unsubscribe self t h a) a t' = registry self a t')
    /\ (forall t', registry (unsubscribe self t h a) (negb a) t' = registry self (negb a) t').
Proof.
  intros self t h a. split; [| split].
  - destruct a; cbn; unfold remove_at; rewrite (proj2 (EventType_eqb_spec t t) eq_refl);
      [destruct (existsb (Nat.eqb h) (Bus._async_handlers self t)) eqn:E
      | destruct (existsb (Nat.eqb h) (Bus._handlers self t)) eqn:E];
      try apply list_remove_count;
      rewrite <- (list_remove_not_in h _ E) at 1; apply list_remove_count.
  - intros t' Hne. destruct a; cbn; unfold remove_at;
      destruct (EventType_eqb t t') eqn:E; try reflexivity;
      apply EventType_eqb_spec in E; congruence.
  - intros t'. destruct a; reflexivity.
Qed.

(** [EventBus.publish] always runs the synchronous handlers of the
    event's type, whatever they return or raise, and leaves the handler
    lists as they were; the async registry gains the event's type as a
    key (the sync registry does not).  It returns [False] exactly when
    the type has asynchronous handlers and no event loop is running;
    the event is put on the queue (by a task on the running loop)
    exactly when the type has asynchronous handlers and a loop is
    running. *)
Theorem bus_publish_outcome :
  forall run (st : BusState) (loop_running : bool) (ev : Event),
    let '(st', res, tr) := publish_st run st loop_running ev in
    let self := bs_bus st in
    Bus.invoked tr = Bus._handlers self (ev_type ev)
    /\ (res = Ret true \/ res = Ret false)
    /\ (res = Ret false <-> Bus._async_handlers self (ev_type ev) <> [] /\ loop_running = false)
    /\ Bus._event_queue (bs_bus st')
       = (Bus._event_queue self
          ++ (if negb (List.length (Bus._async_handlers self (ev_type ev)) =? 0)%nat
                 && loop_running then [ev] else []))%list
    /\ Bus._handlers (bs_bus st') = Bus._handlers self
    /\ Bus._async_handlers (bs_bus st') = Bus._async_handlers self
    /\ bs_sync_keys st' = bs_sync_keys st
    /\ bs_async_keys st' = touch (bs_async_keys st) (ev_type ev).
Proof.
  intros run st loop_running ev. unfold publish_st, Bus.publish.
  set (self := bs_bus st).
  pose proof (invoked_handle_sync_list run ev (Bus._handlers self (ev_type ev))) as Hi.
  change (flat_map (Bus.run_sync_handler run ev) (Bus._handlers self (ev_type ev)))
    with (Bus._handle_sync run self ev) in Hi.
  destruct (Bus._async_handlers self (ev_type ev)) as [| h hs] eqn:E;
    cbv beta iota zeta;
    cbn [touch_keys bs_bus bs_sync_keys bs_async_keys Bus._event_queue Bus._handlers
         Bus._async_handlers List.length negb andb Nat.eqb].
  - rewrite invoked_app, Hi. cbn. rewrite !app_nil_r.
    repeat split; auto; try discriminate; intros [Hn1 Hn2]; congruence.
  - destruct loop_running; cbn [andb].
    + rewrite invoked_app, Hi. cbn. rewrite app_nil_r.
      repeat split; auto; try discriminate; intros [Hn1 Hn2]; congruence.
    + rewrite Hi, app_nil_r.
      repeat split; auto; congruence.
Qed.

(* ------------------------------------------------------------------ *)
(** ** The row stored by [handle_audit_persistence] *)

Lemma insert_row_ok (t : table) (now : Z) (r : AuditEvent) (t' : table) (r' : AuditEvent) :
  insert_row t now r = Ret (t', r') ->
  t' = (t ++ [r'])%list
  /\ existsb (fun x => sql_eq (ae_id x) (ae_id r')) t = false
  /\ existsb (fun x => sql_eq (ae_event_id x) (ae_event_id r')) t = false.
Proof.
  unfold insert_row. cbv zeta. intro H.
  repeat match type of H with
         | context [if ?c then _ else _] => destruct c eqn:?; [discriminate |]
         end.
  injection H as <- <-. split; [reflexivity |]. split; assumption.
Qed.





(* ------------------------------------------------------------------ *)
(** ** The rest of [AuditEventService] *)

(** [result.scalar_one_or_none()]: no row is [None], one row is that
    row, more raise [MultipleResultsFound]. *)
Definition scalar_one_or_none (rows : list AuditEvent) : py (option AuditEvent) :=
  match rows with
  | [] => Ret None
  | [r] => Ret (Some r)
  | _ => Raise MultipleResultsFound
  end.

(** [AuditEventService.get_by_id] (audit_service.py:36-41). *)
Definition get_by_id (db : table) (event_id : Z) : py (option AuditEvent) :=
  scalar_one_or_none (filter (fun r => sql_eq (ae_id r) (PInt event_id)) db).

(** [AuditEventService.get_by_uuid] (audit_service.py:43-48). *)
Definition get_by_uuid (db : table) (event_uuid : string) : py (option AuditEvent) :=
  scalar_one_or_none (filter (fun r => sql_eq (ae_event_id r) (PStr event_uuid)) db).

(** Times are seconds since [datetime.min] (0001-01-01 00:00:00);
    [datetime.max] (9999-12-31 23:59:59) is this many seconds later. *)
Definition datetime_max : Z := 3652058 * 86400 + 86399.

(** [AuditEventService.get_user_activity] (audit_service.py:81-92);
    [now] is [datetime.utcnow()] in seconds, so [start_date] is
    [now - days * 86400].  [timedelta(days=days)] raises [OverflowError]
    beyond 999999999 days, and the subtraction does when [start_date]
    leaves [datetime]'s range.  [created_at >= start_date] is SQL's
    [>=], which a NULL [created_at] fails. *)
Definition get_user_activity (db : table) (now : Z) (user_id : Z) (days : Z)
  : py (list AuditEvent) :=
  let start_date := now - days * 86400 in
  if (999999999 <? Z.abs days) || negb ((0 <=? start_date) && (start_date <=? datetime_max))
  then Raise OverflowError
  else Ret (sort_by (order_before C_created_at true)
    (filter (fun r => sql_eq (ae_user_id r) (PInt user_id)
                      && match ae_created_at r with
                         | PInt c => start_date <=? c
                         | _ => false
                         end) db)).

(** [AuditEventService.get_resource_history] (audit_service.py:94-105). *)
Definition get_resource_history (db : table) (resource_type resource_id : string)
  : list AuditEvent :=
  sort_by (order_before C_created_at false)
    (filter (fun r => sql_eq (ae_resource_type r) (PStr resource_type)
                      && sql_eq (ae_resource_id r) (PStr resource_id)) db).

(** [AuditEventService.bulk_update_status] (audit_service.py:126-134):
    [UPDATE ... WHERE id IN event_ids SET status, processed_at = now],
    commit, and the number of matched rows.  The status is written to the
    [String(20)] column as each matched row is updated: a value
    PostgreSQL refuses there (more than 20 characters that are not
    trailing spaces, or a NUL) raises [DataError] as soon as one row
    matches, and the transaction changes nothing. *)
Definition bulk_update_status (db : table) (now : Z) (event_ids : list Z) (status : string)
  : table * py nat :=
  let matched r := existsb (sql_eq (ae_id r)) (map PInt event_ids) in
  if value_refused C_status (PStr status) && existsb matched db then (db, Raise DataError)
  else
  (map (fun r => if matched r
                 then set_column (set_column r C_status (PStr status)) C_processed_at (PInt now)
                 else r) db,
   Ret (List.length (filter matched db))).

(** [AuditEventService.delete_event] (audit_service.py:136-141):
    [DELETE ... WHERE id = event_id], commit, [rowcount > 0]. *)
Definition delete_event (db : table) (event_id : Z) : table * py bool :=
  let hit r := sql_eq (ae_id r) (PInt event_id) in
  (filter (fun r => negb (hit r)) db,
   Ret (Nat.ltb 0 (List.length (filter hit db)))).

Lemma sql_eq_sym (a b : pyval) : sql_eq a b = sql_eq b a.
Proof.
  destruct a, b; cbn; try reflexivity;
    [destruct b, b0; reflexivity | apply Z.eqb_sym | apply String.eqb_sym].
Qed.

Lemma sql_eq_trans (a b v : pyval) :
  sql_eq a v = true -> sql_eq b v = true -> sql_eq a b = true.
Proof.
  destruct a, v; cbn; try discriminate; destruct b; cbn; try discriminate.
  - intros H1 H2. apply Bool.eqb_prop in H1, H2. subst. apply Bool.eqb_reflx.
  - intros H1 H2. apply Z.eqb_eq in H1, H2. subst. apply Z.eqb_refl.
  - intros H1 H2. apply String.eqb_eq in H1, H2. subst. apply String.eqb_refl.
Qed.

Lemma sql_eq_int (v : pyval) (i : Z) : sql_eq v (PInt i) = true <-> v = PInt i.
Proof.
  destruct v; cbn; split; intro H; try discriminate; try congruence.
  - apply Z.eqb_eq in H. subst. reflexivity.
  - injection H as ->. apply Z.eqb_refl.
Qed.

Lemma filter_none {A} (f : A -> bool) (l : list A) : existsb f l = false -> filter f l = [].
Proof.
  induction l as [| x l IH]; cbn; [reflexivity |].
  intro H. apply orb_false_iff in H as [H1 H2]. rewrite H1. exact (IH H2).
Qed.

Lemma filter_all {A} (f : A -> bool) (l : list A) :
  existsb (fun x => negb (f x)) l = false -> filter f l = l.
Proof.
  induction l as [| x l IH]; cbn; [reflexivity |].
  intro H. apply orb_false_iff in H as [H1 H2]. destruct (f x); cbn in H1; [| discriminate].
  rewrite (IH H2). reflexivity.
Qed.

Lemma create_event_ok (db : table) (uuid : string) (now : Z) (ed : list (string * pyval))
  (db' : table) (row : AuditEvent) :
  create_event db uuid now ed = (db', Ret row) ->
  db' = (db ++ [row])%list
  /\ existsb (fun x => sql_eq (ae_id x) (ae_id row)) db = false
  /\ existsb (fun x => sql_eq (ae_event_id x) (ae_event_id row)) db = false.
Proof.
  unfold create_event. intro H.
  destruct (AuditEvent_kwargs _) as [r |]; [| discriminate].
  destruct (insert_row db now r) as [[t1 r1] | [] ] eqn:E; try discriminate.
  injection H as <- <-. exact (insert_row_ok db now r t1 r1 E).
Qed.

Lemma create_event_fail (db : table) (uuid : string) (now : Z) (ed : list (string * pyval))
  (db' : table) (e : exn) :
  create_event db uuid now ed = (db', Raise e) -> db' = db.
Proof.
  unfold create_event. intro H.
  destruct (AuditEvent_kwargs _) as [r |]; [| injection H as <-; reflexivity].
  destruct (insert_row db now r) as [[t1 r1] | [] ]; injection H as H1 H2;
    first [discriminate | exact (eq_sym H1)].
Qed.

Lemma dict_get_dict_set (d : list (string * pyval)) (k : string) (v : pyval) :
  dict_get (dict_set d k v) k = v.
Proof.
  induction d as [| [k' v'] d IH]; cbn.
  - rewrite String.eqb_refl. reflexivity.
  - destruct (String.eqb k' k) eqn:E; cbn; rewrite E; [reflexivity | exact IH].
Qed.

(** After a successful [create_event] the new row is found by its id with
    [get_by_id] and by its event_id with [get_by_uuid] (the generated
    uuid when the caller gave no event_id), and [delete_event] on its id
    returns [True] and restores the table as it was before the create. *)
Theorem create_event_round_trip :
  forall (db : table) (uuid : string) (now : Z) (ed : list (string * pyval))
         (db' : table) (row : AuditEvent),
    create_event db uuid now ed = (db', Ret row) ->
    db' = (db ++ [row])%list
    /\ (existsb (fun kv => String.eqb (fst kv) "event_id") ed = false ->
        ae_event_id row = PStr uuid)
    /\ (forall e, ae_event_id row = PStr e -> get_by_uuid db' e = Ret (Some row))
    /\ (forall i, ae_id row = PInt i ->
        get_by_id db' i = Ret (Some row) /\ delete_event db' i = (db, Ret true)).
Proof.
  intros db uuid now ed db' row H.
  pose proof (create_event_ok db uuid now ed db' row H) as [-> [Hid Heid]].
  split; [reflexivity | split; [| split]].
  - intro Hk. unfold create_event in H. rewrite Hk in H.
    destruct (AuditEvent_kwargs (dict_set ed "event_id" (PStr uuid))) as [r |] eqn:Ek;
      [| discriminate].
    destruct (insert_row db now r) as [[t1 r1] | [] ] eqn:Ei; try discriminate.
    injection H as _ <-.
    apply kwargs_event_id in Ek. rewrite dict_get_dict_set in Ek.
    unfold insert_row in Ei. cbv zeta in Ei.
    repeat match type of Ei with
           | context [if ?c then _ else _] => destruct c; [discriminate |]
           end.
    injection Ei as _ <-. exact Ek.
  - intros e He. unfold get_by_uuid. rewrite filter_app.
    rewrite (filter_none _ db); [| rewrite <- He; exact Heid].
    cbn [filter app]. rewrite He. cbn [sql_eq]. rewrite String.eqb_refl. reflexivity.
  - intros i Hi. unfold get_by_id, delete_event.
    rewrite !filter_app. rewrite (filter_none _ db) by (rewrite <- Hi; exact Hid).
    rewrite (filter_all (fun r => negb (sql_eq (ae_id r) (PInt i))) db).
    + cbn [filter app negb]. rewrite Hi. cbn [sql_eq]. rewrite Z.eqb_refl.
      cbn [negb app]. rewrite app_nil_r. split; reflexivity.
    + rewrite <- (existsb_ext' (fun x => sql_eq (ae_id x) (ae_id row))); [exact Hid |].
      intro x. rewrite Hi. symmetry. apply negb_involutive.
Qed.

(** A login record without event_id, created in [db_one]. *)
Definition login_fields : list (string * pyval) :=
  [("event_type", PStr "user.login"); ("action", PStr "login"); ("user_id", PInt 7)].

Definition created_login : table * py AuditEvent := create_event db_one "u-2" 2000 login_fields.

Definition created_row : AuditEvent :=
  match snd created_login with Ret r => r | Raise _ => empty_row end.

Lemma create_event_round_trip_witness :
  create_event db_one "u-2" 2000 login_fields = (fst created_login, Ret created_row)
  /\ get_by_uuid (fst created_login) "u-2" = Ret (Some created_row)
  /\ delete_event (fst created_login) 2 = (db_one, Ret true).
Proof.
  assert (H : create_event db_one "u-2" 2000 login_fields = (fst created_login, Ret created_row))
    by (vm_compute; reflexivity).
  split; [exact H | split].
  - apply (proj1 (proj2 (proj2 (create_event_round_trip _ _ _ _ _ _ H)))).
    vm_compute; reflexivity.
  - apply (proj2 (proj2 (proj2 (proj2 (create_event_round_trip _ _ _ _ _ _ H))) 2
                   ltac:(vm_compute; reflexivity))).
Defined.

(** No two rows of the table have SQL-equal values of [f]. *)
Fixpoint unique_by (f : AuditEvent -> pyval) (t : table) : bool :=
  match t with
  | [] => true
  | r :: t' => negb (existsb (fun x => sql_eq (f x) (f r)) t') && unique_by f t'
  end.

(** The calls that change the audit table: [create_event],
    [handle_audit_persistence], [delete_event] and [bulk_update_status]. *)
Inductive db_call : Type :=
| CallCreate (uuid : string) (now : Z) (event_data : list (string * pyval))
| CallPersist (now : Z) (event : Event)
| CallDelete (event_id : Z)
| CallBulkUpdate (now : Z) (event_ids : list Z) (status : string).

Definition apply_call (db : table) (c : db_call) : table :=
  match c with
  | CallCreate uuid now ed => fst (create_event db uuid now ed)
  | CallPersist now ev => fst (handle_audit_persistence db now ev)
  | CallDelete i => fst (delete_event db i)
  | CallBulkUpdate now ids st => fst (bulk_update_status db now ids st)
  end.

Lemma unique_by_snoc (f : AuditEvent -> pyval) (t : table) (r : AuditEvent) :
  unique_by f (t ++ [r])%list
  = unique_by f t && negb (existsb (fun x => sql_eq (f x) (f r)) t).
Proof.
  induction t as [| x t IH]; cbn [app unique_by existsb]; [reflexivity |].
  rewrite IH, existsb_app. cbn [existsb]. rewrite orb_false_r, (sql_eq_sym (f r) (f x)).
  destruct (existsb (fun y => sql_eq (f y) (f x)) t), (sql_eq (f x) (f r)),
    (existsb (fun y => sql_eq (f y) (f r)) t), (unique_by f t); reflexivity.
Qed.

Lemma unique_by_filter (f : AuditEvent -> pyval) (p : AuditEvent -> bool) (t : table) :
  unique_by f t = true -> unique_by f (filter p t) = true.
Proof.
  induction t as [| x t IH]; cbn; [reflexivity |].
  intro H. apply andb_true_iff in H as [H1 H2].
  destruct (p x); cbn; [| exact (IH H2)].
  rewrite (IH H2), andb_true_r. apply negb_true_iff. apply negb_true_iff in H1.
  apply not_true_iff_false. intro He. apply existsb_exists in He as [y [Hy Hq]].
  apply filter_In in Hy as [Hy _]. apply not_true_iff_false in H1. apply H1.
  apply existsb_exists. exists y. split; assumption.
Qed.

Lemma existsb_map_comp {A B} (p : B -> bool) (g : A -> B) (l : list A) :
  existsb p (map g l) = existsb (fun x => p (g x)) l.
Proof. induction l as [| x l IH]; cbn; [reflexivity | rewrite IH; reflexivity]. Qed.

Lemma unique_by_map (f : AuditEvent -> pyval) (g : AuditEvent -> AuditEvent) (t : table) :
  (forall x, f (g x) = f x) -> unique_by f (map g t) = unique_by f t.
Proof.
  intro Hg. induction t as [| x t IH]; cbn; [reflexivity |].
  rewrite IH, Hg, existsb_map_comp. f_equal. f_equal.
  apply existsb_ext'. intro y. rewrite Hg. reflexivity.
Qed.

Lemma unique_by_at_most_one (f : AuditEvent -> pyval) (v : pyval) (t : table) :
  unique_by f t = true -> (List.length (filter (fun r => sql_eq (f r) v) t) <= 1)%nat.
Proof.
  induction t as [| x t IH]; cbn; [lia |].
  intro H. apply andb_true_iff in H as [H1 H2].
  destruct (sql_eq (f x) v) eqn:Ex; cbn; [| exact (IH H2)].
  rewrite filter_none; [cbn; lia |].
  apply not_true_iff_false. intro He. apply existsb_exists in He as [y [Hy Hq]].
  apply negb_true_iff, not_true_iff_false in H1. apply H1.
  apply existsb_exists. exists y. split; [exact Hy |]. exact (sql_eq_trans _ _ _ Hq Ex).
Qed.

Lemma scalar_one_or_none_ret (rows : list AuditEvent) :
  (List.length rows <= 1)%nat -> exists o, scalar_one_or_none rows = Ret o.
Proof.
  destruct rows as [| r [| r' rows]]; cbn; intro H; [eexists; reflexivity | eexists; reflexivity | lia].
Qed.

Lemma unique_ids_create (db : table) (uuid : string) (now : Z) (ed : list (string * pyval)) :
  unique_by ae_id db = true -> unique_by ae_event_id db = true ->
  unique_by ae_id (fst (create_event db uuid now ed)) = true
  /\ unique_by ae_event_id (fst (create_event db uuid now ed)) = true.
Proof.
  intros H1 H2. destruct (create_event db uuid now ed) as [db' [row | e]] eqn:E; cbn [fst].
  - apply create_event_ok in E as [-> [Hi He]].
    rewrite !unique_by_snoc, H1, H2, Hi, He. split; reflexivity.
  - apply create_event_fail in E as ->. split; assumption.
Qed.

Lemma unique_ids_persist (db : table) (now : Z) (ev : Event) :
  unique_by ae_id db = true -> unique_by ae_event_id db = true ->
  unique_by ae_id (fst (handle_audit_persistence db now ev)) = true
  /\ unique_by ae_event_id (fst (handle_audit_persistence db now ev)) = true.
Proof.
  intros H1 H2. unfold handle_audit_persistence.
  destruct (audit_row_of_event ev now) as [row |]; [| split; assumption].
  destruct (insert_row db now row) as [[t' r'] |] eqn:E; cbn [fst]; [| split; assumption].
  apply insert_row_ok in E as [-> [Hi He]].
  rewrite !unique_by_snoc, H1, H2, Hi, He. split; reflexivity.
Qed.

Lemma unique_ids_call (db : table) (c : db_call) :
  unique_by ae_id db = true -> unique_by ae_event_id db = true ->
  unique_by ae_id (apply_call db c) = true /\ unique_by ae_event_id (apply_call db c) = true.
Proof.
  intros H1 H2. destruct c as [uuid now ed | now ev | i | now ids st]; cbn [apply_call].
  - apply unique_ids_create; assumption.
  - apply unique_ids_persist; assumption.
  - split; apply unique_by_filter; assumption.
  - unfold bulk_update_status. destruct (_ && _); cbn [fst]; [split; assumption |].
    rewrite !unique_by_map; [split; assumption | |];
      intro x; destruct (existsb _ _); reflexivity.
Qed.

(** Whatever sequence of [create_event], [handle_audit_persistence],
    [delete_event] and [bulk_update_status] calls built the table from an
    empty one, no two rows share an id or an event_id, so [get_by_id]
    and [get_by_uuid] never raise [MultipleResultsFound]: they return
    the row or [None]. *)
Theorem lookups_never_raise :
  forall (calls : list db_call) (i : Z) (e : string),
    let db := fold_left apply_call calls [] in
    (exists o, get_by_id db i = Ret o) /\ (exists o, get_by_uuid db e = Ret o).
Proof.
  intros calls i e db.
  assert (Hu : unique_by ae_id db = true /\ unique_by ae_event_id db = true).
  { unfold db.
    assert (Hgen : forall t, unique_by ae_id t = true -> unique_by ae_event_id t = true ->
              unique_by ae_id (fold_left apply_call calls t) = true
              /\ unique_by ae_event_id (fold_left apply_call calls t) = true).
    { induction calls as [| c calls IH]; intros t H1 H2; cbn [fold_left]; [split; assumption |].
      destruct (unique_ids_call t c H1 H2) as [H1' H2']. exact (IH _ H1' H2'). }
    apply Hgen; reflexivity. }
  destruct Hu as [H1 H2]. split.
  - apply scalar_one_or_none_ret, unique_by_at_most_one. exact H1.
  - apply scalar_one_or_none_ret, unique_by_at_most_one. exact H2.
Qed.

(** [delete_event] returns [True] exactly when a row with that id was
    stored; afterwards no row has that id, and every other row is kept. *)
Theorem delete_event_spec :
  forall (db : table) (i : Z),
    (snd (delete_event db i) = Ret true <-> exists r, In r db /\ ae_id r = PInt i)
    /\ get_by_id (fst (delete_event db i)) i = Ret None
    /\ (forall r, In r (fst (delete_event db i)) <-> In r db /\ ae_id r <> PInt i).
Proof.
  intros db i. unfold delete_event. cbn [fst snd]. split; [| split].
  - split.
    + intro H. injection H as H.
      destruct (filter (fun r => sql_eq (ae_id r) (PInt i)) db) as [| r l] eqn:E;
        [discriminate |].
      assert (Hr : In r (filter (fun r => sql_eq (ae_id r) (PInt i)) db)) by (rewrite E; left; reflexivity).
      apply filter_In in Hr as [Hr Hq]. apply sql_eq_int in Hq. exists r. split; assumption.
    + intros [r [Hr Hq]].
      assert (Hin : In r (filter (fun r => sql_eq (ae_id r) (PInt i)) db))
        by (apply filter_In; split; [exact Hr | apply sql_eq_int; exact Hq]).
      destruct (filter (fun r => sql_eq (ae_id r) (PInt i)) db); [contradiction | reflexivity].
  - unfold get_by_id. rewrite filter_none; [reflexivity |].
    apply not_true_iff_false. intro He. apply existsb_exists in He as [r [Hr Hq]].
    apply filter_In in Hr as [_ Hn]. rewrite Hq in Hn. discriminate.
  - intro r. rewrite filter_In. rewrite <- sql_eq_int.
    destruct (sql_eq (ae_id r) (PInt i)); cbn; intuition discriminate.
Qed.

Lemma existsb_ext_fun {A : Type} (f g : A -> bool) (l : list A) :
  (forall x, f x = g x) -> existsb f l = existsb g l.
Proof.
  intro H. induction l as [| x l IH]; cbn; [reflexivity |]. rewrite H, IH. reflexivity.
Qed.

Lemma existsb_map_PInt (v : pyval) (l : list Z) :
  existsb (sql_eq v) (map PInt l) = existsb (fun i => sql_eq v (PInt i)) l.
Proof.
  induction l as [| i l IH]; cbn; [reflexivity |]. rewrite IH. reflexivity.
Qed.

(** [bulk_update_status] depends only on which ids are listed: listing an
    id twice, or in another order, gives the same table and the same
    outcome.  For a status the [String(20)] column holds as it is (at
    most 20 characters, no NUL) and ids the [Integer] column can hold, it
    keeps the rows in place: a row whose id is listed gets the new status
    and [processed_at = now] and keeps every other column, a row whose id
    is not listed is unchanged, and the result is the number of listed
    rows.  A status PostgreSQL refuses raises [DataError] and leaves the
    table unchanged once a listed row exists. *)
Theorem bulk_update_status_spec :
  forall (db : table) (now : Z) (ids ids' : list Z) (status : string),
    ((forall i, In i ids <-> In i ids') ->
      bulk_update_status db now ids status = bulk_update_status db now ids' status)
    /\ (value_fits C_status (PStr status) = true -> forallb int4 ids = true ->
        Forall2 (fun r r' =>
          ((exists i, In i ids /\ ae_id r = PInt i) ->
             ae_status r' = PStr status /\ ae_processed_at r' = PInt now
             /\ forall c, c <> C_status -> c <> C_processed_at -> col_value c r' = col_value c r)
          /\ (~ (exists i, In i ids /\ ae_id r = PInt i) -> r' = r))
         db (fst (bulk_update_status db now ids status))
        /\ snd (bulk_update_status db now ids status)
           = Ret (List.length (filter (fun r => existsb (fun i => sql_eq (ae_id r) (PInt i)) ids) db)))
    /\ (value_refused C_status (PStr status) = true ->
        (exists r i, In r db /\ In i ids /\ ae_id r = PInt i) ->
        bulk_update_status db now ids status = (db, Raise DataError)).
Proof.
  intros db now ids ids' status.
  assert (Hm : forall r l, existsb (sql_eq (ae_id r)) (map PInt l) = true
                           <-> exists i, In i l /\ ae_id r = PInt i).
  { intros r l. rewrite existsb_exists. split.
    - intros [v [Hv Hq]]. apply in_map_iff in Hv as [i [<- Hi]].
      apply sql_eq_int in Hq. exists i. split; assumption.
    - intros [i [Hi Hq]]. exists (PInt i). split; [apply in_map; exact Hi |].
      apply sql_eq_int. exact Hq. }
  split; [| split].
  - intro Hs. unfold bulk_update_status.
    assert (He : forall r, existsb (sql_eq (ae_id r)) (map PInt ids)
                           = existsb (sql_eq (ae_id r)) (map PInt ids')).
    { intro r. apply eq_true_iff_eq. rewrite !Hm.
      split; intros [i [Hi Hq]]; exists i; split; try exact Hq; apply Hs; exact Hi. }
    rewrite (existsb_ext_fun _ _ db He).
    destruct (_ && _); [reflexivity |].
    f_equal.
    + apply map_ext. intro r. rewrite He. reflexivity.
    + f_equal. f_equal. apply filter_ext. exact He.
  - intros Hf _. unfold bulk_update_status.
    rewrite (fits_not_refused _ _ Hf). cbn [andb fst snd]. split.
    + induction db as [| r db IH]; cbn [map]; constructor; [| exact IH].
      destruct (existsb (sql_eq (ae_id r)) (map PInt ids)) eqn:E.
      * split; [| intro Hn; exfalso; apply Hn, Hm, E].
        intros _. split; [reflexivity | split; [reflexivity |]].
        intros c H1 H2. destruct c; cbn; congruence.
      * split; [| reflexivity].
        intro Hx. apply Hm in Hx. congruence.
    + f_equal. f_equal. apply filter_ext. intro r. apply existsb_map_PInt.
  - intros Hr [r [i [Hin [Hi Hq]]]]. unfold bulk_update_status. rewrite Hr.
    replace (existsb _ db) with true; [reflexivity |].
    symmetry. apply existsb_exists. exists r. split; [exact Hin |].
    apply Hm. exists i. split; assumption.
Qed.

Lemma bulk_update_status_spec_witness :
  bulk_update_status db_one 3000 [1; 1] "failed" = bulk_update_status db_one 3000 [1] "failed"
  /\ snd (bulk_update_status db_one 3000 [1] "failed") = Ret 1%nat
  /\ bulk_update_status db_one 3000 [1] "failed: retries exhausted"
     = (db_one, Raise DataError).
Proof.
  split; [| split].
  - apply (proj1 (bulk_update_status_spec db_one 3000 [1; 1] [1] "failed")).
    intro i. simpl. tauto.
  - rewrite (proj2 (proj1 (proj2 (bulk_update_status_spec db_one 3000 [1] [1] "failed"))
               ltac:(vm_compute; reflexivity) ltac:(vm_compute; reflexivity))).
    vm_compute. reflexivity.
  - apply (proj2 (proj2 (bulk_update_status_spec db_one 3000 [1] [1] "failed: retries exhausted"))).
    + vm_compute. reflexivity.
    + exists (hd empty_row db_one), 1. split; [vm_compute; left; reflexivity |].
      split; [left; reflexivity | vm_compute; reflexivity].
Defined.

Lemma insert_by_perm before (r : AuditEvent) (l : list AuditEvent) :
  Permutation (insert_by before r l) (r :: l).
Proof.
  induction l as [| x l IH]; cbn; [reflexivity |].
  destruct (before x r); [| reflexivity].
  rewrite IH. apply perm_swap.
Qed.

Lemma sort_by_perm before (l : list AuditEvent) : Permutation (sort_by before l) l.
Proof.
  induction l as [| x l IH]; cbn; [reflexivity |].
  rewrite insert_by_perm. apply perm_skip. exact IH.
Qed.

(** The created_at of [x] is not newer than that of [y]. *)
Definition oldest_first (x y : AuditEvent) : Prop :=
  sql_le (ae_created_at x) (ae_created_at y) = true.

Lemma created_at_asc_sorted (l : list AuditEvent) :
  Sorted oldest_first (sort_by (order_before C_created_at false) l).
Proof.
  apply sort_by_sorted; unfold order_before, oldest_first; simpl; intros x r H.
  - apply sql_le_total. destruct (sql_le (ae_created_at r) (ae_created_at x)); simpl in *; congruence.
  - destruct (sql_le (ae_created_at r) (ae_created_at x)); simpl in *; congruence.
Qed.

(** [get_resource_history] returns each row of the resource once, and
    only those, oldest first. *)
Theorem get_resource_history_spec :
  forall (db : table) (resource_type resource_id : string),
    Permutation (get_resource_history db resource_type resource_id)
      (filter (fun r => eq_str (ae_resource_type r) resource_type
                        && eq_str (ae_resource_id r) resource_id) db)
    /\ (forall r, In r (get_resource_history db resource_type resource_id)
                  <-> In r db /\ ae_resource_type r = PStr resource_type
                      /\ ae_resource_id r = PStr resource_id)
    /\ Sorted oldest_first (get_resource_history db resource_type resource_id).
Proof.
  intros db rt rid.
  assert (Hp : Permutation (get_resource_history db rt rid)
                 (filter (fun r => eq_str (ae_resource_type r) rt
                                   && eq_str (ae_resource_id r) rid) db)).
  { unfold get_resource_history. rewrite sort_by_perm.
    erewrite filter_ext; [reflexivity |]. intro r. rewrite !sql_eq_str. reflexivity. }
  split; [exact Hp | split].
  - intro r. split.
    + intro H. apply (Permutation_in _ Hp) in H. apply filter_In in H as [H He].
      apply andb_true_iff in He as [H1 H2].
      destruct (ae_resource_type r); try discriminate; destruct (ae_resource_id r); try discriminate.
      apply String.eqb_eq in H1, H2. subst. auto.
    + intros [H [H1 H2]]. apply (Permutation_in _ (Permutation_sym Hp)). apply filter_In.
      split; [exact H |]. rewrite H1, H2. cbn. rewrite !String.eqb_refl. reflexivity.
  - apply created_at_asc_sorted.
Qed.

(** [get_user_activity] raises [OverflowError] when [days] exceeds
    999999999 in magnitude or [now - days] leaves [datetime]'s range.
    Otherwise, for a user id the [Integer] column can hold, it returns
    each row of the user whose created_at is at or after [now - days]
    once, and only those, newest first; for a row created at [c] seconds
    that means [now - days * 86400 <= c]. *)
Theorem get_user_activity_spec :
  forall (db : table) (now user_id days : Z),
    (Z.abs days <= 999999999 -> 0 <= now - days * 86400 <= datetime_max ->
     int4 user_id = true ->
     exists rows, get_user_activity db now user_id days = Ret rows
     /\ Permutation rows
          (filter (fun r => sql_eq (ae_user_id r) (PInt user_id)
                            && match ae_created_at r with
                               | PInt c => now - days * 86400 <=? c
                               | _ => false
                               end) db)
     /\ (forall r, In r db ->
           In r rows <-> ae_user_id r = PInt user_id
                         /\ exists c, ae_created_at r = PInt c /\ now - days * 86400 <= c)
     /\ Sorted newest_first rows)
    /\ ((999999999 < Z.abs days \/ now - days * 86400 < 0 \/ datetime_max < now - days * 86400) ->
        get_user_activity db now user_id days = Raise OverflowError).
Proof.
  intros db now uid days. split.
  - intros Hd [Hs1 Hs2] _. unfold get_user_activity.
    replace ((999999999 <? Z.abs days) || negb ((0 <=? now - days * 86400)
               && (now - days * 86400 <=? datetime_max))) with false
      by (symmetry; apply orb_false_iff; split;
          [apply Z.ltb_ge; exact Hd
          | apply negb_false_iff, andb_true_iff; split; apply Z.leb_le; assumption]).
    eexists. split; [reflexivity |].
    assert (Hp := sort_by_perm (order_before C_created_at true)
      (filter (fun r => sql_eq (ae_user_id r) (PInt uid)
                        && match ae_created_at r with
                           | PInt c => now - days * 86400 <=? c
                           | _ => false
                           end) db)).
    split; [exact Hp | split].
    + intros r Hr. split.
      * intro H. apply (Permutation_in _ Hp) in H. apply filter_In in H as [_ He].
        apply andb_true_iff in He as [H1 H2]. apply sql_eq_int in H1.
        split; [exact H1 |].
        destruct (ae_created_at r) eqn:Hc; try discriminate.
        exists z. split; [reflexivity | apply Z.leb_le; exact H2].
      * intros [H1 [c [Hc H2]]]. apply (Permutation_in _ (Permutation_sym Hp)).
        apply filter_In. split; [exact Hr |]. rewrite Hc.
        apply andb_true_iff. split; [apply sql_eq_int; exact H1 | apply Z.leb_le; exact H2].
    + apply created_at_desc_sorted.
  - intro H. unfold get_user_activity.
    replace ((999999999 <? Z.abs days) || negb ((0 <=? now - days * 86400)
               && (now - days * 86400 <=? datetime_max))) with true; [reflexivity |].
    symmetry. apply orb_true_iff.
    destruct H as [H | [H | H]]; [left; apply Z.ltb_lt; exact H | right; apply negb_true_iff ..].
    + apply andb_false_iff. left. apply Z.leb_gt. exact H.
    + apply andb_false_iff. right. apply Z.leb_gt. exact H.
Qed.

Lemma get_user_activity_spec_witness :
  (exists rows, get_user_activity (fst created_login) 2000 7 0 = Ret rows /\ In created_row rows)
  /\ get_user_activity (fst created_login) 2000 7 1 = Raise OverflowError.
Proof.
  split.
  - destruct (proj1 (get_user_activity_spec (fst created_login) 2000 7 0)
                ltac:(vm_compute; discriminate) ltac:(vm_compute; split; discriminate)
                ltac:(vm_compute; reflexivity))
      as [rows [Hr [_ [Hin _]]]].
    exists rows. split; [exact Hr |].
    apply (Hin created_row ltac:(vm_compute; right; left; reflexivity)).
    split; [vm_compute; reflexivity |]. exists 2000. split; [vm_compute; reflexivity | lia].
  - apply (proj2 (get_user_activity_spec (fst created_login) 2000 7 1)).
    right. left. lia.
Defined.

(* ------------------------------------------------------------------ *)
(** ** What [convert_decimal_to_float] makes serializable *)



(* ------------------------------------------------------------------ *)
(** ** The [event_handler] decorator (bus_event/events/decorators.py) *)

Definition EventType_members : list EventType :=
  [ET_USER_LOGIN; ET_USER_LOGOUT; ET_SHAREHOLDER_CREATED; ET_SHAREHOLDER_UPDATED;
   ET_SHARE_ISSUED; ET_CERTIFICATE_GENERATED; ET_SYSTEM_ERROR; ET_AUDIT_LOG; ET_NOTIFICATION].

(** [EventType(s)]: the member with value [s], [None] for [ValueError]. *)
Definition EventType_of_value (s : string) : option EventType :=
  find (fun t => String.eqb (EventType_value t) s) EventType_members.

(** The [event_type] argument: an [EventType] member or another string. *)
Inductive event_type_arg : Type :=
| TypeMember (t : EventType)
| TypeString (s : string).

(** [event_handler(event_type, async_handler)(func)] (decorators.py:15-50):
    the bus after the decoration and the function bound to the decorated
    name.  [wrapper] is the [functools.wraps] closure, a new callable.
    [EventType] is a [str] enum, so a member also goes through
    [EventType(event_type)], which returns it. *)
Definition event_handler (bus : Bus.EventBus) (event_type : event_type_arg)
  (async_handler : bool) (func wrapper : Bus.handler) : Bus.EventBus * Bus.handler :=
  let s := match event_type with TypeMember t => EventType_value t | TypeString s => s end in
  match EventType_of_value s with
  | None => (bus, func)
  | Some t => (Bus.subscribe bus t func async_handler, wrapper)
  end.

Lemma EventType_of_value_member (t : EventType) : EventType_of_value (EventType_value t) = Some t.
Proof. destruct t; reflexivity. Qed.

Lemma EventType_of_value_none (s : string) :
  (forall t, EventType_value t <> s) -> EventType_of_value s = None.
Proof.
  intro H. unfold EventType_of_value.
  destruct (find _ EventType_members) as [t |] eqn:E; [| reflexivity].
  apply find_some in E as [_ E]. apply String.eqb_eq in E. exfalso. exact (H t E).
Qed.

Lemma unsubscribe_absent (self : Bus.EventBus) (t : EventType) (h : Bus.handler) (a : bool) :
  existsb (Nat.eqb h) (registry self a t) = false ->
  forall b t', registry (unsubscribe self t h a) b t' = registry self b t'.
Proof.
  intros Hfresh b t'. destruct a, b; cbn; try reflexivity;
    unfold remove_at; cbn in Hfresh;
    destruct (EventType_eqb t t') eqn:E; try reflexivity;
    apply EventType_eqb_spec in E; subst t'; rewrite Hfresh; reflexivity.
Qed.

(** A string names the same registration as the member with that value;
    any other string registers nothing and leaves [func] undecorated.
    On success the decorated name is bound to the wrapper, not to the
    registered [func]: [unsubscribe] with it finds nothing to remove, and
    [func] stays registered. *)
Theorem event_handler_registers_func :
  forall (bus : Bus.EventBus) (a : bool) (func wrapper : Bus.handler),
    (forall t, event_handler bus (TypeString (EventType_value t)) a func wrapper
               = event_handler bus (TypeMember t) a func wrapper)
    /\ (forall s, (forall t, EventType_value t <> s) ->
        event_handler bus (TypeString s) a func wrapper = (bus, func))
    /\ (forall t, wrapper <> func -> existsb (Nat.eqb wrapper) (registry bus a t) = false ->
        let '(bus', g) := event_handler bus (TypeMember t) a func wrapper in
        g = wrapper
        /\ (forall b t', registry (unsubscribe bus' t g a) b t' = registry bus' b t')
        /\ In func (registry (unsubscribe bus' t g a) a t)).
Proof.
  intros bus a func wrapper. split; [| split].
  - intro t. reflexivity.
  - intros s Hs. unfold event_handler. rewrite EventType_of_value_none by exact Hs. reflexivity.
  - intros t Hne Hfresh. unfold event_handler. rewrite EventType_of_value_member.
    assert (Hreg : registry (Bus.subscribe bus t func a) a t = (registry bus a t ++ [func])%list).
    { destruct a; cbn; unfold Bus.append_at; rewrite (proj2 (EventType_eqb_spec t t) eq_refl);
        reflexivity. }
    assert (Hf : existsb (Nat.eqb wrapper) (registry (Bus.subscribe bus t func a) a t) = false).
    { rewrite Hreg, existsb_app. apply orb_false_iff. split; [exact Hfresh |].
      cbn. apply Nat.eqb_neq in Hne. rewrite Hne. reflexivity. }
    split; [reflexivity | split].
    + apply unsubscribe_absent. exact Hf.
    + rewrite (unsubscribe_absent _ t wrapper a Hf a t), Hreg.
      apply in_or_app. right. left. reflexivity.
Qed.

Lemma event_handler_registers_func_witness :
  In 5%nat (registry (unsubscribe (fst (event_handler Bus.empty_bus (TypeMember ET_USER_LOGIN)
                                           false 5%nat 6%nat))
                                  ET_USER_LOGIN 6%nat false) false ET_USER_LOGIN).
Proof.
  apply (proj2 (proj2 (proj2 (proj2 (event_handler_registers_func Bus.empty_bus false 5%nat 6%nat))
                        ET_USER_LOGIN ltac:(discriminate) ltac:(reflexivity)))).
Defined.
